(** * Meal Outpost lead qualification: scorer, partner search and stage machine

    A shallow embedding of [meal_outpost/tools.py] and [meal_outpost/agent.py]
    (the helper functions of [tools_agent/meal_outpost/tools.py] are the same
    code over a table loaded from a data file), followed by the properties
    of the qualification scorer, the partner search and the conversation
    stage machine.

    Python values are embedded as follows.
    - [int] is [Z]; [Optional[T]] is [option T]; [bool] is [bool].
    - [str] is [string], read as UTF-8 text.  [lower], [strip], the digit
      class of [\d] and [title] act on the ASCII range, which is where they
      act for every text whose non-ASCII characters are uncased, non-blank
      and non-digit (all literals of the program are such texts).
    - truthiness ([if x:]) is the class [Truthy].
    - the [ConversationState] TypedDict is a record with one field per key.
    - a node mutates the state in place and may raise; it is a computation
      in the monad [Node] below.
    - [print] in [send_notification] is the only output; the console is
      kept as the list of notifications printed so far.
    - [int] of a digit run is its exact value: the interpreter's optional
      cap on the length of a decimal literal is left out. *)

From Stdlib Require Import String Ascii List ZArith Lia Bool.
From Stdlib Require Import Numbers.DecimalString.
Import ListNotations.

Open Scope string_scope.
Open Scope Z_scope.

(* ================================================================== *)
(** ** Python text primitives *)

Module Py.

Definition code (c : ascii) : nat := nat_of_ascii c.

Definition in_range (lo hi : nat) (c : ascii) : bool :=
  (Nat.leb lo (code c) && Nat.leb (code c) hi)%bool.

Definition is_upper : ascii -> bool := in_range 65 90.
Definition is_lower : ascii -> bool := in_range 97 122.
Definition is_digit : ascii -> bool := in_range 48 57.

(** [str.isspace] on the ASCII range: TAB..CR, FS..US and SPACE. *)
Definition is_space (c : ascii) : bool :=
  (in_range 9 13 c || in_range 28 32 c)%bool.

Definition lower_char (c : ascii) : ascii :=
  if is_upper c then ascii_of_nat (code c + 32) else c.

Definition upper_char (c : ascii) : ascii :=
  if is_lower c then ascii_of_nat (code c - 32) else c.

(** [s.lower()] *)
Fixpoint lower (s : string) : string :=
  match s with
  | EmptyString => EmptyString
  | String c s' => String (lower_char c) (lower s')
  end.

Fixpoint lstrip (s : string) : string :=
  match s with
  | EmptyString => EmptyString
  | String c s' => if is_space c then lstrip s' else s
  end.

Fixpoint rstrip (s : string) : string :=
  match s with
  | EmptyString => EmptyString
  | String c s' =>
      match rstrip s' with
      | EmptyString => if is_space c then EmptyString else String c EmptyString
      | r => String c r
      end
  end.

(** [s.strip()] *)
Definition strip (s : string) : string := rstrip (lstrip s).

(** [sub in s] for two strings. *)
Fixpoint contains (sub s : string) : bool :=
  match s with
  | EmptyString => String.prefix sub EmptyString
  | String _ s' => (String.prefix sub s || contains sub s')%bool
  end.

(** [x in l] for a string and a list of strings. *)
Definition mem (x : string) (l : list string) : bool :=
  existsb (String.eqb x) l.

(** [sep.join(l)] *)
Fixpoint join (sep : string) (l : list string) : string :=
  match l with
  | [] => EmptyString
  | [x] => x
  | x :: rest => x ++ sep ++ join sep rest
  end.

(** [s.title()] on ASCII text: a letter that follows a letter is
    lowered, any other letter is raised. *)
Fixpoint title_from (prev_cased : bool) (s : string) : string :=
  match s with
  | EmptyString => EmptyString
  | String c s' =>
      if (is_upper c || is_lower c)%bool
      then String (if prev_cased then lower_char c else upper_char c)
                  (title_from true s')
      else String c (title_from false s')
  end.

Definition title : string -> string := title_from false.

(** [re.findall(r'\d+', s)]: the maximal digit runs, left to right.
    [cur] is the run being read. *)
Definition flush (cur : string) : list string :=
  match cur with EmptyString => [] | _ => [cur] end.

Fixpoint findall_digits_from (cur s : string) : list string :=
  match s with
  | EmptyString => flush cur
  | String c s' =>
      if is_digit c
      then findall_digits_from (cur ++ String c EmptyString) s'
      else flush cur ++ findall_digits_from EmptyString s'
  end.

Definition findall_digits : string -> list string :=
  findall_digits_from EmptyString.

(** [int(s)] for a string of decimal digits. *)
Definition digit_value (c : ascii) : Z := Z.of_nat (code c - 48).

Fixpoint int_from (acc : Z) (s : string) : Z :=
  match s with
  | EmptyString => acc
  | String c s' => int_from (10 * acc + digit_value c) s'
  end.

Definition int : string -> Z := int_from 0.

(** [str(n)] for an [int]. *)
Definition str (n : Z) : string := NilZero.string_of_int (Z.to_int n).

(** The formatting of an optional value in an f-string. *)
Definition str_opt {A} (f : A -> string) (o : option A) : string :=
  match o with Some a => f a | None => "None" end.

(** [d.get(k, default)] on a literal dict, kept as an association list. *)
Fixpoint dict_get {V} (d : list (string * V)) (k : string) (default : V) : V :=
  match d with
  | [] => default
  | (k', v) :: d' => if String.eqb k k' then v else dict_get d' k default
  end.

(** [s.upper()] *)
Fixpoint upper (s : string) : string :=
  match s with
  | EmptyString => EmptyString
  | String c s' => String (upper_char c) (upper s')
  end.

(** [s.startswith(p)] *)
Definition startswith (s p : string) : bool := String.prefix p s.

End Py.

(** Truthiness: what [if x:], [and], [or] and [not] test. *)
Class Truthy (A : Type) := truthy : A -> bool.

#[export] Instance truthy_bool : Truthy bool := fun b => b.
#[export] Instance truthy_int : Truthy Z := fun n => negb (n =? 0).
#[export] Instance truthy_str : Truthy string :=
  fun s => match s with EmptyString => false | _ => true end.
#[export] Instance truthy_list {A} : Truthy (list A) :=
  fun l => match l with [] => false | _ => true end.
#[export] Instance truthy_optional {A} `{Truthy A} : Truthy (option A) :=
  fun o => match o with None => false | Some a => truthy a end.

(* ================================================================== *)
(** ** tools.py *)

Module Tools.

Record RestaurantPartner := {
  name : string;
  city : string;
  state : string;
  cuisine_type : list string;
  description : string;
  capacity : string;
  dietary_options : list string;
  avg_price_per_person : string
}.

Definition RESTAURANT_PARTNERS : list RestaurantPartner := [
  {| name := "Ben's Fast Food"; city := "New York City"; state := "NY";
     cuisine_type := ["Italian"];
     description := "Healthy delicious bowls with a variety of options";
     capacity := "large";
     dietary_options := ["vegetarian"; "gluten-free"];
     avg_price_per_person := "$25-35" |};
  {| name := "Pokeworks"; city := "New York City"; state := "NY";
     cuisine_type := ["Healthy"; "Vegetarian"];
     description := "Incredible poke bowls with a variety of options";
     capacity := "medium";
     dietary_options := ["vegetarian"; "vegan"; "gluten-free"; "dairy-free"];
     avg_price_per_person := "$18-28" |};
  {| name := "Starbird Chicken"; city := "New York City"; state := "NY";
     cuisine_type := ["BBQ"; "American"];
     description := "Delicious chicken meals";
     capacity := "large";
     dietary_options := ["gluten-free"];
     avg_price_per_person := "$22-32" |};
  {| name := "Pokeworks"; city := "Los Angeles"; state := "CA";
     cuisine_type := ["Seafood"; "California Cuisine"];
     description := "Incredible poke bowls with a variety of options";
     capacity := "medium";
     dietary_options := ["vegetarian"; "gluten-free"; "pescatarian"];
     avg_price_per_person := "$28-38" |};
  {| name := "Starbird Chicken"; city := "Los Angeles"; state := "CA";
     cuisine_type := ["Mexican"; "Latin"];
     description := "Delicious chicken meals";
     capacity := "large";
     dietary_options := ["vegetarian"; "vegan"; "gluten-free"];
     avg_price_per_person := "$16-24" |};
  {| name := "Curry Up Now"; city := "San Francisco"; state := "CA";
     cuisine_type := ["Healthy"; "Indian Street Food"];
     description := "Modern Indian street food with authentic flavors";
     capacity := "medium";
     dietary_options := ["vegetarian"; "vegan"; "gluten-free"; "dairy-free"];
     avg_price_per_person := "$19-27" |}
].

(** One entry of the result list: a dict from key to text. *)
Definition Dict := list (string * string).

Definition capacity_order : list (string * Z) :=
  [("small", 1); ("medium", 2); ("large", 3)].

(** [any(x.lower() in [t.lower() for t in tags] for x in wanted)] *)
Definition any_tag (wanted tags : list string) : bool :=
  existsb (fun x => Py.mem (Py.lower x) (map Py.lower tags)) wanted.

(** The dict appended for a match, in [meal_outpost/tools.py]. *)
Definition entry (restaurant : RestaurantPartner) : Dict :=
  [ ("name", name restaurant);
    ("cuisine", Py.join ", " (cuisine_type restaurant));
    ("description", description restaurant);
    ("capacity", capacity restaurant);
    ("dietary_options", Py.join ", " (dietary_options restaurant));
    ("avg_price", avg_price_per_person restaurant) ].

(** The dict appended for a match, in [tools_agent/meal_outpost/tools.py]:
    the same without the price. *)
Definition entry_without_price (restaurant : RestaurantPartner) : Dict :=
  [ ("name", name restaurant);
    ("cuisine", Py.join ", " (cuisine_type restaurant));
    ("description", description restaurant);
    ("capacity", capacity restaurant);
    ("dietary_options", Py.join ", " (dietary_options restaurant)) ].

Section PartnerSearch.

(** The table the loop runs over and the dict it appends for a match:
    [RESTAURANT_PARTNERS] and [entry] in [meal_outpost], the records of
    the data file and [entry_without_price] in [tools_agent]. *)
Variable table : list RestaurantPartner.
Variable to_dict : RestaurantPartner -> Dict.

Variable city_arg : string.
Variable cuisine_type_arg : option (list string).
Variable dietary_needs : option (list string).
Variable capacity_arg : option string.
Variable limit : Z.

Definition city_lower : string := Py.strip (Py.lower city_arg).

(** The four tests of the loop body; [true] means the body reaches
    [matches.append], [false] that it ran into a [continue]. *)
Definition city_ok (restaurant : RestaurantPartner) : bool :=
  Py.contains city_lower (Py.lower (city restaurant)).

Definition cuisine_ok (restaurant : RestaurantPartner) : bool :=
  if truthy cuisine_type_arg
  then match cuisine_type_arg with
       | Some cs => any_tag cs (cuisine_type restaurant)
       | None => true
       end
  else true.

Definition dietary_ok (restaurant : RestaurantPartner) : bool :=
  if truthy dietary_needs
  then match dietary_needs with
       | Some ds => any_tag ds (dietary_options restaurant)
       | None => true
       end
  else true.

Definition capacity_ok (restaurant : RestaurantPartner) : bool :=
  if truthy capacity_arg
  then match capacity_arg with
       | Some cap =>
           negb (Py.dict_get capacity_order (Py.lower cap) 0
                 >? Py.dict_get capacity_order
                      (Py.lower (capacity restaurant)) 0)
       | None => true
       end
  else true.

Definition keeps (restaurant : RestaurantPartner) : bool :=
  (city_ok restaurant && cuisine_ok restaurant
   && dietary_ok restaurant && capacity_ok restaurant)%bool.

(** The [for] loop, with [matches] the list built so far; the
    [break] is tested after the append. *)
Fixpoint partners_loop (rest : list RestaurantPartner)
                       (matches : list Dict) : list Dict :=
  match rest with
  | [] => matches
  | restaurant :: rest' =>
      if negb (city_ok restaurant) then partners_loop rest' matches
      else if negb (cuisine_ok restaurant) then partners_loop rest' matches
      else if negb (dietary_ok restaurant) then partners_loop rest' matches
      else if negb (capacity_ok restaurant) then partners_loop rest' matches
      else
        let matches' := (matches ++ [to_dict restaurant])%list in
        if Z.of_nat (List.length matches') >=? limit
        then matches'
        else partners_loop rest' matches'
  end.

Definition get_restaurant_partners : list Dict :=
  partners_loop table [].

(** What the loop can still append once [matches] is built: at least
    one more dict, because the limit is tested only after an append. *)
Definition remaining (matches : list Dict) : nat :=
  Z.to_nat (Z.max 1 (limit - Z.of_nat (List.length matches))).

End PartnerSearch.

Definition default_limit : Z := 5.

Record LeadScore := {
  status : string;
  score : Z;
  reasons : list string;
  recommendation : string
}.

Definition _get_recommendation (st : string) (rs : list string) : string :=
  if String.eqb st "Qualified"
  then "Route to sales team immediately - high-priority lead"
  else if String.eqb st "Maybe"
  then "Route to sales team for evaluation - potential opportunity"
  else "Capture information for future follow-up when expanding".

Definition default_minimum_order_size : Z := 20.

(** The running pair [(score, reasons)] of the function body. *)
Definition Acc := (Z * list string)%type.

Definition add (points : Z) (reason : string) (a : Acc) : Acc :=
  (fst a + points, (snd a ++ [reason])%list).

Definition service_area_step (is_in_service_area : option bool) (a : Acc) : Acc :=
  if truthy is_in_service_area
  then add 50 "In service area" a
  else add 0 "Outside current service area" a.

Definition headcount_step (headcount : option Z) (minimum_order_size : Z)
                          (a : Acc) : Acc :=
  if truthy headcount
  then match headcount with
       | Some h =>
           if h >=? minimum_order_size
           then add 30 ("Meets minimum size (" ++ Py.str h ++ " people)") a
           else if h >=? 10
           then add 15 ("Below preferred minimum but substantial ("
                        ++ Py.str h ++ " people)") a
           else add 0 ("Small order size (" ++ Py.str h ++ " people)") a
       | None => a
       end
  else a.

Definition need_step (user_need : option string) (a : Acc) : Acc :=
  match user_need with
  | Some n =>
      if String.eqb n "recurring" then add 20 "Recurring need (high value)" a
      else if String.eqb n "one-time" then add 10 "One-time event" a
      else a
  | None => a
  end.

Definition status_of (sc : Z) : string :=
  if sc >=? 70 then "Qualified"
  else if sc >=? 40 then "Maybe"
  else "Not Qualified".

Definition calculate_lead_score (is_in_service_area : option bool)
                                (headcount : option Z)
                                (user_need : option string)
                                (minimum_order_size : Z) : LeadScore :=
  let a := (0, []) in
  let a := service_area_step is_in_service_area a in
  let a := headcount_step headcount minimum_order_size a in
  let a := need_step user_need a in
  let st := status_of (fst a) in
  {| status := st;
     score := fst a;
     reasons := snd a;
     recommendation := _get_recommendation st (snd a) |}.

(** The [lead_data] dict that [email_collection_node] builds:
    [contact], [requirements] and [qualification], flattened. *)
Record LeadData := {
  lead_email : string;
  lead_city : option string;
  lead_state : option string;
  lead_need_type : option string;
  lead_headcount : option Z;
  lead_timing : option string;
  lead_frequency : option string;
  lead_cuisine_preferences : list string;
  lead_status : string;
  lead_in_service_area : option bool;
  lead_meets_minimum : option bool
}.

Definition nl : string := String (ascii_of_nat 10) EmptyString.

Definition str_bool (b : bool) : string := if b then "True" else "False".
Definition same (s : string) : string := s.

Definition email_content (d : LeadData) : string :=
  nl ++ "New Catering Lead from Meal Outpost Website:" ++ nl
  ++ nl
  ++ "CONTACT INFORMATION:" ++ nl
  ++ "- Email: " ++ lead_email d ++ nl
  ++ nl
  ++ "CATERING REQUIREMENTS:" ++ nl
  ++ "- Location: " ++ Py.str_opt same (lead_city d) ++ ", "
                    ++ Py.str_opt same (lead_state d) ++ nl
  ++ "- Need Type: " ++ Py.str_opt same (lead_need_type d) ++ nl
  ++ "- Group Size: " ++ Py.str_opt Py.str (lead_headcount d) ++ " people" ++ nl
  ++ "- Timing: " ++ Py.str_opt same (lead_timing d) ++ nl
  ++ "- Frequency: " ++ Py.str_opt same (lead_frequency d) ++ nl
  ++ "- Cuisine Preferences: "
  ++ Py.join ", " (lead_cuisine_preferences d) ++ nl
  ++ nl
  ++ "QUALIFICATION:" ++ nl
  ++ "- Status: " ++ lead_status d ++ nl
  ++ "- In Service Area: " ++ Py.str_opt str_bool (lead_in_service_area d) ++ nl
  ++ "- Meets Minimum Size: " ++ Py.str_opt str_bool (lead_meets_minimum d) ++ nl
  ++ nl
  ++ "ACTION REQUIRED: Follow up within 24 hours" ++ nl
  ++ "    ".

(** What one call of [send_notification] writes to the console. *)
Record Notification := {
  email_to : string;
  subject : string;
  content : string
}.

Record SendResult := {
  success : bool;
  recipient : string;
  message : string;
  no_data_stored : bool
}.

(** [sales_email] is [config.sales_email]; the [config] module of the
    package is not part of the sources, so the address is an argument.
    The console is threaded through as the list of notifications
    written so far. *)
Definition send_notification (sales_email : string)
                             (lead_id : string) (lead_data : LeadData)
                             (routing_type : string)
                             (console : list Notification)
  : SendResult * list Notification :=
  let printed :=
    {| email_to := "EMAIL TO: " ++ sales_email;
       subject := "SUBJECT: New Catering Lead - " ++ lead_email lead_data;
       content := "CONTENT:" ++ nl ++ email_content lead_data |} in
  ({| success := true;
      recipient := sales_email;
      message := "Email notification sent to sales team";
      no_data_stored := true |},
   (console ++ [printed])%list).

(** *** Service areas *)

Record ServiceArea := {
  area_city : string;
  area_state : string;
  area_lead_time_hours : Z;
  area_restaurant_count : Z;
  area_notes : option string
}.

Definition SERVICE_AREAS : list ServiceArea := [
  {| area_city := "New York City"; area_state := "NY";
     area_lead_time_hours := 48; area_restaurant_count := 25;
     area_notes := Some "Manhattan, Brooklyn, Queens - outer boroughs may have higher delivery fees" |};
  {| area_city := "Los Angeles"; area_state := "CA";
     area_lead_time_hours := 48; area_restaurant_count := 20;
     area_notes := Some "Greater LA area including Santa Monica, Culver City, Downtown" |};
  {| area_city := "Chicago"; area_state := "IL";
     area_lead_time_hours := 48; area_restaurant_count := 18;
     area_notes := None |};
  {| area_city := "San Francisco"; area_state := "CA";
     area_lead_time_hours := 48; area_restaurant_count := 22;
     area_notes := Some "SF proper and nearby cities like Oakland, Berkeley" |};
  {| area_city := "Boston"; area_state := "MA";
     area_lead_time_hours := 48; area_restaurant_count := 15;
     area_notes := None |};
  {| area_city := "Washington"; area_state := "DC";
     area_lead_time_hours := 48; area_restaurant_count := 16;
     area_notes := Some "DC, Arlington, Alexandria metro area" |};
  {| area_city := "Seattle"; area_state := "WA";
     area_lead_time_hours := 48; area_restaurant_count := 14;
     area_notes := None |};
  {| area_city := "Austin"; area_state := "TX";
     area_lead_time_hours := 48; area_restaurant_count := 12;
     area_notes := None |};
  {| area_city := "Denver"; area_state := "CO";
     area_lead_time_hours := 48; area_restaurant_count := 10;
     area_notes := None |};
  {| area_city := "Miami"; area_state := "FL";
     area_lead_time_hours := 48; area_restaurant_count := 13;
     area_notes := None |}
].

(** The dict [check_service_area] returns: the served one carries the
    row, the other one a message. *)
Inductive AreaCheck :=
| Served (area : ServiceArea)
| NotServed (message : string).

(** The [serves_area] key of the result. *)
Definition serves_area (result : AreaCheck) : bool :=
  match result with Served _ => true | NotServed _ => false end.

(** The two tests a row has to pass in [check_service_area]. *)
Definition area_matches (city_lower : string) (state_arg : option string)
                        (area : ServiceArea) : bool :=
  if Py.contains city_lower (Py.lower (area_city area))
  then if (truthy state_arg
           && match state_arg with
              | Some st => negb (Py.upper st =? area_state area)%string
              | None => false
              end)%bool
       then false
       else true
  else false.

(** The [for] loop of [check_service_area] over the rows left. *)
Fixpoint check_service_area_loop (areas : list ServiceArea)
                                 (city_arg : string) (city_lower : string)
                                 (state_arg : option string) : AreaCheck :=
  match areas with
  | [] =>
      NotServed ("We don't currently serve " ++ city_arg
                 ++ ", but we're always expanding!")
  | area :: areas' =>
      if Py.contains city_lower (Py.lower (area_city area))
      then if (truthy state_arg
               && match state_arg with
                  | Some st => negb (Py.upper st =? area_state area)%string
                  | None => false
                  end)%bool
           then check_service_area_loop areas' city_arg city_lower state_arg
           else Served area
      else check_service_area_loop areas' city_arg city_lower state_arg
  end.

(** [check_service_area(city, state)] over a table of areas;
    [SERVICE_AREAS] in the program. *)
Definition check_service_area (areas : list ServiceArea) (city_arg : string)
                              (state_arg : option string) : AreaCheck :=
  let city_lower := Py.strip (Py.lower city_arg) in
  check_service_area_loop areas city_arg city_lower state_arg.

End Tools.


(* ================================================================== *)
(** ** tools_agent/meal_outpost/tools.py: the agent tools *)

Module ToolsAgent.

(** [check_order_minimum(people_count, order_frequency)] *)
Definition check_order_minimum (people_count : Z) (order_frequency : string)
  : string :=
  let minimum := 20 in
  if people_count >=? minimum
  then "Perfect! " ++ Py.str people_count
       ++ " people is a great size for us. We specialize in orders of "
       ++ Py.str minimum
       ++ "+ people and would be happy to help with your catering needs."
  else if people_count >=? 10
  then if (Py.contains "recurring" (Py.lower order_frequency)
           || Py.contains "daily" (Py.lower order_frequency)
           || Py.contains "weekly" (Py.lower order_frequency))%bool
       then "While " ++ Py.str people_count
            ++ " people is below our typical minimum of " ++ Py.str minimum
            ++ ", we'd be happy to discuss your recurring catering needs. Recurring orders give us more flexibility with smaller group sizes."
       else "Thanks for your interest! " ++ Py.str people_count
            ++ " people is below our typical minimum of " ++ Py.str minimum
            ++ " people per order. However, if you have recurring catering needs or multiple events planned, we'd still love to discuss how we might help."
  else "Thank you for considering Meal Outpost! Our service works best for orders of "
       ++ Py.str minimum ++ "+ people. For " ++ Py.str people_count
       ++ " people, you might want to consider ordering directly from individual restaurants. If your catering needs grow in the future, we'd love to help!".

(** The default of [order_frequency]. *)
Definition default_order_frequency : string := "one-time".

(** The names [check_service_area] lists for an area: the first three
    partners of exactly that city and state. *)
Definition partners_of (partners : list Tools.RestaurantPartner)
                       (area : Tools.ServiceArea) : list string :=
  firstn 3
    (map Tools.name
       (filter (fun r => (Tools.city r =? Tools.area_city area)%string
                         && (Tools.state r =? Tools.area_state area)%string)%bool
               partners)).

(** The reply for a matching area. *)
Definition area_reply (partners : list Tools.RestaurantPartner)
                      (area : Tools.ServiceArea) : string :=
  let restaurants := partners_of partners area in
  let result :=
    if truthy restaurants
    then "Great! We operate in " ++ Tools.area_city area ++ ", "
         ++ Tools.area_state area
         ++ " and have some great partners there including "
         ++ Py.join ", " restaurants ++ "."
    else "Great! We operate in " ++ Tools.area_city area ++ ", "
         ++ Tools.area_state area ++ "." in
  if truthy (Tools.area_notes area)
  then result ++ " We cover "
       ++ Py.str_opt Tools.same (Tools.area_notes area) ++ "."
  else result.

(** [check_service_area(city)], over the two tables of the data file. *)
Fixpoint check_service_area_loop (areas : list Tools.ServiceArea)
                                 (partners : list Tools.RestaurantPartner)
                                 (city_arg city_lower : string) : string :=
  match areas with
  | [] =>
      "We don't currently serve " ++ Py.title city_arg
      ++ ", but we're always expanding! We'd love to stay in touch about your catering needs and can notify you when we expand to your area."
  | area :: areas' =>
      if Py.contains city_lower (Py.lower (Tools.area_city area))
      then area_reply partners area
      else check_service_area_loop areas' partners city_arg city_lower
  end.

Definition check_service_area (areas : list Tools.ServiceArea)
                              (partners : list Tools.RestaurantPartner)
                              (city_arg : string) : string :=
  check_service_area_loop areas partners city_arg (Py.strip (Py.lower city_arg)).

End ToolsAgent.

(* ================================================================== *)
(** ** agent.py *)

Module Agent.

Inductive Role := Human | AI.

Record Message := { role : Role; content : string }.

Definition HumanMessage (c : string) : Message := {| role := Human; content := c |}.
Definition AIMessage (c : string) : Message := {| role := AI; content := c |}.

Record ConversationState := {
  messages : list Message;
  user_need : option string;
  location_city : option string;
  location_state : option string;
  timing : option string;
  headcount : option Z;
  frequency : option string;
  cuisine_preferences : list string;
  dietary_requirements : list string;
  is_in_service_area : option bool;
  meets_minimum : option bool;
  qualification_status : option string;
  contact_name : option string;
  contact_email : option string;
  contact_phone : option string;
  conversation_stage : string;
  ready_for_handoff : bool;
  notes : string
}.

(** [state[key] = v], one function per key the nodes assign to. *)
Definition set_messages v (s : ConversationState) :=
  let '(Build_ConversationState _ b c d e f g h i j k l m n o p q r) := s in
  Build_ConversationState v b c d e f g h i j k l m n o p q r.
Definition set_user_need v (s : ConversationState) :=
  let '(Build_ConversationState a _ c d e f g h i j k l m n o p q r) := s in
  Build_ConversationState a v c d e f g h i j k l m n o p q r.
Definition set_location_city v (s : ConversationState) :=
  let '(Build_ConversationState a b _ d e f g h i j k l m n o p q r) := s in
  Build_ConversationState a b v d e f g h i j k l m n o p q r.
Definition set_location_state v (s : ConversationState) :=
  let '(Build_ConversationState a b c _ e f g h i j k l m n o p q r) := s in
  Build_ConversationState a b c v e f g h i j k l m n o p q r.
Definition set_timing v (s : ConversationState) :=
  let '(Build_ConversationState a b c d _ f g h i j k l m n o p q r) := s in
  Build_ConversationState a b c d v f g h i j k l m n o p q r.
Definition set_headcount v (s : ConversationState) :=
  let '(Build_ConversationState a b c d e _ g h i j k l m n o p q r) := s in
  Build_ConversationState a b c d e v g h i j k l m n o p q r.
Definition set_frequency v (s : ConversationState) :=
  let '(Build_ConversationState a b c d e f _ h i j k l m n o p q r) := s in
  Build_ConversationState a b c d e f v h i j k l m n o p q r.
Definition set_cuisine_preferences v (s : ConversationState) :=
  let '(Build_ConversationState a b c d e f g _ i j k l m n o p q r) := s in
  Build_ConversationState a b c d e f g v i j k l m n o p q r.
Definition set_is_in_service_area v (s : ConversationState) :=
  let '(Build_ConversationState a b c d e f g h i _ k l m n o p q r) := s in
  Build_ConversationState a b c d e f g h i v k l m n o p q r.
Definition set_meets_minimum v (s : ConversationState) :=
  let '(Build_ConversationState a b c d e f g h i j _ l m n o p q r) := s in
  Build_ConversationState a b c d e f g h i j v l m n o p q r.
Definition set_qualification_status v (s : ConversationState) :=
  let '(Build_ConversationState a b c d e f g h i j k _ m n o p q r) := s in
  Build_ConversationState a b c d e f g h i j k v m n o p q r.
Definition set_contact_email v (s : ConversationState) :=
  let '(Build_ConversationState a b c d e f g h i j k l m _ o p q r) := s in
  Build_ConversationState a b c d e f g h i j k l m v o p q r.
Definition set_conversation_stage v (s : ConversationState) :=
  let '(Build_ConversationState a b c d e f g h i j k l m n o _ q r) := s in
  Build_ConversationState a b c d e f g h i j k l m n o v q r.
Definition set_ready_for_handoff v (s : ConversationState) :=
  let '(Build_ConversationState a b c d e f g h i j k l m n o p _ r) := s in
  Build_ConversationState a b c d e f g h i j k l m n o p v r.

(** *** The node monad

    A node runs against the conversation state (a dict it mutates in
    place) and the console the notification sink writes to.  It either
    returns or raises; whatever it had written before raising stays. *)

Record World := {
  state : ConversationState;
  console : list Tools.Notification
}.

Inductive PyError := IndexError | TypeError.

Inductive Outcome (A : Type) :=
| Returned (a : A) (w : World)
| Raised (e : PyError) (w : World).
Arguments Returned {A} a w.
Arguments Raised {A} e w.

Definition Node (A : Type) := World -> Outcome A.

Definition ret {A} (a : A) : Node A := fun w => Returned a w.

Definition bind {A B} (m : Node A) (k : A -> Node B) : Node B :=
  fun w => match m w with
           | Returned a w' => k a w'
           | Raised e w' => Raised e w'
           end.

#[local] Notation "x <- m ;; k" := (bind m (fun x => k))
  (at level 61, m at next level, right associativity).
#[local] Notation "m ;; k" := (bind m (fun _ => k))
  (at level 61, right associativity).

Definition raise {A} (e : PyError) : Node A := fun w => Raised e w.

(** [state[key]] *)
Definition read {A} (key : ConversationState -> A) : Node A :=
  fun w => Returned (key (state w)) w.

(** [state[key] = v] *)
Definition assign (upd : ConversationState -> ConversationState) : Node unit :=
  fun w => Returned tt {| state := upd (state w); console := console w |}.

(** [state["messages"][-1].content] *)
Definition last_content : Node string :=
  msgs <- read messages ;;
  match List.rev msgs with
  | [] => raise IndexError
  | m :: _ => ret (content m)
  end.

(** [state["messages"].append(m)] *)
Definition append_message (m : Message) : Node unit :=
  msgs <- read messages ;;
  assign (set_messages (msgs ++ [m])%list).

(** [any(word in text for word in words)] *)
Definition any_in (words : list string) (text : string) : bool :=
  existsb (fun word => Py.contains word text) words.

Definition nl : string := Tools.nl.

(** The prefix of a list of bullet lines, as the source file has it. *)
Definition bullet : string := "â€¢".

Definition greeting_text : string :=
  "Hi! Welcome to Meal Outpost. I'm here to help you figure out if we can support your catering needs." ++ nl
  ++ nl
  ++ "What brings you to Meal Outpost today?" ++ nl
  ++ nl
  ++ "Are you looking for:" ++ nl
  ++ bullet ++ " One-time catering for a meeting or event?" ++ nl
  ++ bullet ++ " A recurring meal program (daily/weekly lunches)?" ++ nl
  ++ bullet ++ " Just exploring your options?".

Definition greeting_node : Node unit :=
  stage <- read conversation_stage ;;
  if negb (stage =? "greeting")%string then ret tt else
  append_message (AIMessage greeting_text) ;;
  assign (set_conversation_stage "discovery").

Definition one_time_words : list string := ["meeting"; "event"; "one-time"; "once"].
Definition recurring_words : list string :=
  ["recurring"; "daily"; "weekly"; "program"; "regular"].

Definition discovery_node : Node unit :=
  stage <- read conversation_stage ;;
  if negb (stage =? "discovery")%string then ret tt else
  last_message <- last_content ;;
  (if any_in one_time_words (Py.lower last_message)
   then assign (set_user_need (Some "one-time"))
   else if any_in recurring_words (Py.lower last_message)
   then assign (set_user_need (Some "recurring"))
   else assign (set_user_need (Some "exploring"))) ;;
  append_message
    (AIMessage "Great! Where are you looking to get catering? What city are you in?") ;;
  assign (set_conversation_stage "location").

(** The dict literal of [location_node], in insertion order. *)
Definition service_cities : list (string * string) := [
  ("new york", "NY"); ("nyc", "NY"); ("new york city", "NY");
  ("los angeles", "CA"); ("la", "CA");
  ("bellevue", "WA"); ("bellevue wa", "WA");
  ("san francisco", "CA"); ("sf", "CA");
  ("boston", "MA"); ("bos", "MA");
  ("washington", "DC"); ("dc", "DC");
  ("seattle", "WA"); ("sea", "WA");
  ("herndon", "VA"); ("herndon va", "VA");
  ("reston", "VA"); ("reston va", "VA");
  ("alexandria", "VA"); ("alexandria va", "VA");
  ("columbus", "OH"); ("columbus oh", "OH");
  ("san diego", "CA"); ("san diego ca", "CA");
  ("emeryville", "CA"); ("emeryville ca", "CA");
  ("san jose", "CA"); ("san jose ca", "CA");
  ("bridgeport", "CT"); ("bridgeport ct", "CT");
  ("fairfield", "CT"); ("fairfield ct", "CT");
  ("Sacramento", "CA"); ("sacramento ca", "CA");
  ("raleigh", "NC"); ("raleigh nc", "NC");
  ("durham", "NC"); ("durham nc", "NC");
  ("cary", "NC"); ("cary nc", "NC");
  ("charlotte", "NC"); ("charlotte nc", "NC");
  ("culver city", "CA"); ("culver city ca", "CA");
  ("san mateo", "CA"); ("san mateo ca", "CA");
  ("santa monica", "CA"); ("santa monica ca", "CA");
  ("sunnyvale", "CA"); ("sunnyvale ca", "CA")
].

(** The [for ... break] loop of [location_node]; its value is
    [city_found]. *)
Fixpoint location_loop (cities : list (string * string)) (last_message : string)
  : Node (option string) :=
  match cities with
  | [] => ret None
  | (city, state_abbr) :: cities' =>
      if Py.contains city last_message
      then assign (set_location_city (Some (Py.title city))) ;;
           assign (set_location_state (Some state_abbr)) ;;
           assign (set_is_in_service_area (Some true)) ;;
           ret (Some (Py.title city))
      else location_loop cities' last_message
  end.

Definition location_node : Node unit :=
  stage <- read conversation_stage ;;
  if negb (stage =? "location")%string then ret tt else
  m <- last_content ;;
  let last_message := Py.lower m in
  city_found <- location_loop service_cities last_message ;;
  response <-
    (if negb (truthy city_found)
     then assign (set_is_in_service_area (Some false)) ;;
          ret ("I appreciate you sharing that! We don't currently serve that area, but I'd still love to learn more about your needs. We're always expanding, and I can connect you with our team." ++ nl
               ++ nl
               ++ "When are you looking to have catering?")
     else ret ("Perfect! We serve " ++ Py.str_opt Tools.same city_found
               ++ " and have great restaurant partners there." ++ nl
               ++ nl
               ++ "When are you looking to have catering?")) ;;
  append_message (AIMessage response) ;;
  assign (set_conversation_stage "timing").

Definition timing_node : Node unit :=
  stage <- read conversation_stage ;;
  if negb (stage =? "timing")%string then ret tt else
  last_message <- last_content ;;
  assign (set_timing (Some last_message)) ;;
  append_message (AIMessage "Got it! How many people are you looking to feed?") ;;
  assign (set_conversation_stage "scale").

Definition scale_node : Node unit :=
  stage <- read conversation_stage ;;
  if negb (stage =? "scale")%string then ret tt else
  last_message <- last_content ;;
  let numbers := Py.findall_digits last_message in
  (match numbers with
   | first :: _ =>
       assign (set_headcount (Some (Py.int first))) ;;
       h <- read headcount ;;
       match h with
       | Some n => assign (set_meets_minimum (Some (n >=? 20)))
       | None => raise TypeError
       end
   | [] => ret tt
   end) ;;
  need <- read user_need ;;
  response <-
    (if match need with Some n => (n =? "recurring")%string | None => false end
     then assign (set_conversation_stage "frequency") ;;
          ret "And how often would you need catering? Daily, weekly, or something else?"
     else assign (set_conversation_stage "preferences") ;;
          ret "Thanks! Do you have any cuisine preferences or dietary requirements? (e.g., Italian, vegetarian, gluten-free)") ;;
  append_message (AIMessage response).

Definition frequency_node : Node unit :=
  stage <- read conversation_stage ;;
  if negb (stage =? "frequency")%string then ret tt else
  last_message <- last_content ;;
  assign (set_frequency (Some last_message)) ;;
  append_message
    (AIMessage "Perfect! Do you have any cuisine preferences or dietary requirements? (e.g., Italian, vegetarian, gluten-free)") ;;
  assign (set_conversation_stage "preferences").

Definition preferences_node : Node unit :=
  stage <- read conversation_stage ;;
  if negb (stage =? "preferences")%string then ret tt else
  prefs <- last_content ;;
  assign (set_cuisine_preferences [prefs]) ;;
  assign (set_conversation_stage "restaurant_partners").

Definition get_restaurant_partners_node : Node unit :=
  stage <- read conversation_stage ;;
  if negb (stage =? "restaurant_partners")%string then ret tt else
  area <- read is_in_service_area ;;
  city <- read location_city ;;
  let response :=
    if truthy area
    then "Great choices! In " ++ Py.str_opt Tools.same city
         ++ ", we work with some excellent restaurant partners that could be perfect for you:" ++ nl
         ++ nl
         ++ bullet ++ " **Ben's Fast Food** - Healthy delicious bowls with a variety of options" ++ nl
         ++ bullet ++ " **Pokeworks** - Incredible poke bowls with a variety of options" ++ nl
         ++ bullet ++ " **Starbird Chicken** - Delicious chicken meals " ++ nl
         ++ nl
         ++ "Plus many other partners in your area! We can match you with the perfect fit for your needs." ++ nl
         ++ nl
         ++ "Would you like me to connect you with our team who can provide personalized recommendations and pricing?"
    else "Based on what you've shared, this sounds like a great fit for the type of service we provide! Even though we don't serve your area yet, we're always expanding." ++ nl
         ++ nl
         ++ "Would you like me to connect you with our team? They can discuss potential options or keep you updated on when we expand to your region." in
  append_message (AIMessage response) ;;
  assign (set_conversation_stage "contact_capture").

Definition contact_capture_node : Node unit :=
  stage <- read conversation_stage ;;
  if negb (stage =? "contact_capture")%string then ret tt else
  m <- last_content ;;
  let last_message := Py.lower m in
  if (Py.contains "yes" last_message || Py.contains "sure" last_message
      || Py.contains "please" last_message)%bool
  then append_message
         (AIMessage ("Perfect! What's the best email address to reach you at?" ++ nl
                     ++ nl
                     ++ "(Our team typically responds within a few hours during business hours)")) ;;
       assign (set_conversation_stage "email_collection")
  else append_message
         (AIMessage ("No problem! If you change your mind, you can always reach our team at sales@mealoutpost.com." ++ nl
                     ++ nl
                     ++ "Is there anything else I can help you understand about Meal Outpost?")) ;;
       assign (set_conversation_stage "end").

(** The [if]/[elif]/[else] of [email_collection_node] that picks the
    status, on the three keys it reads. *)
Definition handoff_status (area : option bool) (meets : option bool)
                          (count : option Z) : string :=
  if (truthy area && truthy meets)%bool then "Qualified"
  else if (truthy area
           || (truthy count
               && match count with Some n => n >=? 10 | None => false end))%bool
  then "Maybe"
  else "Not Qualified".

(** [x or default] for an optional string. *)
Definition or_else (x : option string) (default : string) : string :=
  match x with
  | Some s => if truthy s then s else default
  | None => default
  end.

Section Sink.

(** [config.sales_email], which [send_notification] reads. *)
Variable sales_email : string.

(** The call [send_notification(...)] as a step of a node. *)
Definition call_send_notification (lead_id : string) (lead_data : Tools.LeadData)
                                  (routing_type : string) : Node Tools.SendResult :=
  fun w =>
    let '(result, console') :=
      Tools.send_notification sales_email lead_id lead_data routing_type (console w) in
    Returned result {| state := state w; console := console' |}.

Definition email_collection_node : Node unit :=
  stage <- read conversation_stage ;;
  if negb (stage =? "email_collection")%string then ret tt else
  m <- last_content ;;
  let email := Py.strip m in
  assign (set_contact_email (Some email)) ;;
  area <- read is_in_service_area ;;
  meets <- read meets_minimum ;;
  count <- read headcount ;;
  let qual_status := handoff_status area meets count in
  assign (set_qualification_status (Some qual_status)) ;;
  assign (set_ready_for_handoff true) ;;
  s <- read (fun s => s) ;;
  let notification_data :=
    {| Tools.lead_email := email;
       Tools.lead_city := location_city s;
       Tools.lead_state := location_state s;
       Tools.lead_need_type := user_need s;
       Tools.lead_headcount := headcount s;
       Tools.lead_timing := timing s;
       Tools.lead_frequency := frequency s;
       Tools.lead_cuisine_preferences := cuisine_preferences s;
       Tools.lead_status := qual_status;
       Tools.lead_in_service_area := is_in_service_area s;
       Tools.lead_meets_minimum := meets_minimum s |} in
  call_send_notification "temp-lead-id" notification_data "general_sales" ;;
  let response :=
    "Thanks, " ++ email ++ "! I've notified our team about your catering needs." ++ nl
    ++ nl
    ++ "Here's a quick summary:" ++ nl
    ++ "- Location: " ++ or_else (location_city s) "Outside current service area" ++ nl
    ++ "- Need: " ++ Py.str_opt Tools.same (user_need s) ++ nl
    ++ "- Group size: " ++ Py.str_opt Py.str (headcount s) ++ " people" ++ nl
    ++ "- Timing: " ++ Py.str_opt Tools.same (timing s) ++ nl
    ++ nl
    ++ "Someone from our team will reach out to you within 24 hours!" ++ nl
    ++ nl
    ++ "Is there anything else you'd like to know in the meantime?" in
  append_message (AIMessage response) ;;
  assign (set_conversation_stage "handoff").

Definition handoff_node : Node unit :=
  stage <- read conversation_stage ;;
  if negb (stage =? "handoff")%string then ret tt else
  append_message
    (AIMessage ("Perfect! Thanks so much for chatting with me today. Our team has all your details and will be in touch soon." ++ nl
                ++ nl
                ++ "Have a great day! ðŸŽ‰")) ;;
  assign (set_conversation_stage "complete").

(** *** The nodes of the graph and runs of them *)

Inductive StageNode :=
| Greeting | Discovery | Location | Timing | Scale | Frequency
| Preferences | RestaurantPartners | ContactCapture | EmailCollection
| Handoff.

(** The function behind each node, as [build_graph] registers them. *)
Definition node_fn (n : StageNode) : Node unit :=
  match n with
  | Greeting => greeting_node
  | Discovery => discovery_node
  | Location => location_node
  | Timing => timing_node
  | Scale => scale_node
  | Frequency => frequency_node
  | Preferences => preferences_node
  | RestaurantPartners => get_restaurant_partners_node
  | ContactCapture => contact_capture_node
  | EmailCollection => email_collection_node
  | Handoff => handoff_node
  end.

(** The stage each node stands for: the literal its guard compares
    [conversation_stage] with. *)
Definition node_stage (n : StageNode) : string :=
  match n with
  | Greeting => "greeting"
  | Discovery => "discovery"
  | Location => "location"
  | Timing => "timing"
  | Scale => "scale"
  | Frequency => "frequency"
  | Preferences => "preferences"
  | RestaurantPartners => "restaurant_partners"
  | ContactCapture => "contact_capture"
  | EmailCollection => "email_collection"
  | Handoff => "handoff"
  end.

(** What can happen to a session: a node is invoked on the state, or
    the driver appends the next inbound message to the transcript. *)
Inductive Event :=
| Invoke (n : StageNode)
| UserSays (text : string).

Definition do_event (e : Event) : Node unit :=
  match e with
  | Invoke n => node_fn n
  | UserSays text => append_message (HumanMessage text)
  end.

(** A run: the events in order; an exception ends it. *)
Fixpoint run (events : list Event) : Node unit :=
  match events with
  | [] => ret tt
  | e :: events' => do_event e ;; run events'
  end.

End Sink.

(** The state a session starts from ([initial_state] of the test and
    example scripts). *)
Definition initial_state : ConversationState := {|
  messages := [];
  user_need := None;
  location_city := None;
  location_state := None;
  timing := None;
  headcount := None;
  frequency := None;
  cuisine_preferences := [];
  dietary_requirements := [];
  is_in_service_area := None;
  meets_minimum := None;
  qualification_status := None;
  contact_name := None;
  contact_email := None;
  contact_phone := None;
  conversation_stage := "greeting";
  ready_for_handoff := false;
  notes := ""
|}.

Definition fresh (s : ConversationState) : World :=
  {| state := s; console := [] |}.

(** The number of calls of the notification sink so far. *)
Definition notifications (w : World) : nat := List.length (console w).

(** *** Routing *)

(** [END] of the graph library. *)
Definition END : string := "__end__".

(** [route_conversation(state)]: the name of the node to go to next. *)
Definition route_conversation (s : ConversationState) : string :=
  let stage := conversation_stage s in
  let stage_map := [
    ("greeting", "discovery");
    ("discovery", "location");
    ("location", "timing");
    ("timing", "scale");
    ("scale", if match user_need s with
                 | Some n => (n =? "recurring")%string
                 | None => false
                 end
              then "frequency" else "preferences");
    ("frequency", "preferences");
    ("preferences", "restaurant_partners");
    ("restaurant_showcase", "contact_capture");
    ("contact_capture", "email_collection");
    ("email_collection", "handoff");
    ("handoff", END);
    ("complete", END);
    ("end", END) ] in
  Py.dict_get stage_map stage END.

(** The nodes of [build_graph], by the names they are added under. *)
Definition graph_nodes : list (string * StageNode) := [
  ("greeting", Greeting);
  ("discovery", Discovery);
  ("location", Location);
  ("timing", Timing);
  ("scale", Scale);
  ("frequency", Frequency);
  ("preferences", Preferences);
  ("restaurant_partners", RestaurantPartners);
  ("contact_capture", ContactCapture);
  ("email_collection", EmailCollection);
  ("handoff", Handoff) ].

Definition node_named (name : string) : option StageNode :=
  Py.dict_get (map (fun entry => (fst entry, Some (snd entry))) graph_nodes)
              name None.

End Agent.

(* ================================================================== *)
(** ** Sessions: runs of the stage machine and what holds along them

    Notions used to state and prove the properties of the nodes; none
    of them is code of the program. *)

Module Session.

Import Agent.

(** The world a computation leaves behind, returned or raised. *)
Definition world_of {A} (o : Outcome A) : World :=
  match o with Returned _ w => w | Raised _ w => w end.

(** The stages that come before the handoff stage. *)
Definition pre_handoff (stage : string) : bool :=
  Py.mem stage ["greeting"; "discovery"; "location"; "timing"; "scale";
                "frequency"; "preferences"; "restaurant_partners";
                "contact_capture"; "email_collection"].

(** The last message of the transcript is [m]. *)
Definition last_message_is (w : World) (m : Message) : Prop :=
  exists earlier, messages (state w) = (earlier ++ [m])%list.

(** The stages a node can leave the state in when it runs its body:
    the literals its body assigns to [conversation_stage]. *)
Definition successors (n : StageNode) : list string :=
  match n with
  | Greeting => ["discovery"]
  | Discovery => ["location"]
  | Location => ["timing"]
  | Timing => ["scale"]
  | Scale => ["frequency"; "preferences"]
  | Frequency => ["preferences"]
  | Preferences => ["restaurant_partners"]
  | RestaurantPartners => ["contact_capture"]
  | ContactCapture => ["email_collection"; "end"]
  | EmailCollection => ["handoff"]
  | Handoff => ["complete"]
  end.

(** [meets_minimum] is what [scale_node] computes from [headcount]. *)
Definition minimum_derived (s : ConversationState) : Prop :=
  meets_minimum s = option_map (fun n => n >=? 20) (headcount s).

(** What the body of node [n] does to the world, as far as the
    properties below need it. *)
Record advanced (n : StageNode) (w w' : World) : Prop := {
  adv_stage : In (conversation_stage (state w')) (successors n);
  adv_messages :
    exists extra, messages (state w') = (messages (state w) ++ extra)%list;
  adv_nonempty : messages (state w') <> [];
  adv_console :
    match n with
    | EmailCollection => exists x, console w' = (console w ++ [x])%list
    | _ => console w' = console w
    end;
  adv_headcount :
    n <> Scale ->
    headcount (state w') = headcount (state w)
    /\ meets_minimum (state w') = meets_minimum (state w);
  adv_derived : minimum_derived (state w) -> minimum_derived (state w')
}.

(** The world after the loop of [location_node] found a city. *)
Definition located (found st : string) (w : World) : World :=
  {| state := set_is_in_service_area (Some true)
                (set_location_state (Some st)
                   (set_location_city (Some found) (state w)));
     console := console w |}.

(** What holds of a session at every point of a run from a fresh state:
    an empty transcript is only seen in the greeting stage, nothing was
    sent before the handoff stage, and at most one notification ever. *)
Record session_invariant (w : World) : Prop := {
  inv_transcript :
    messages (state w) = [] -> conversation_stage (state w) = "greeting";
  inv_unsent :
    pre_handoff (conversation_stage (state w)) = true -> console w = [];
  inv_once : (notifications w <= 1)%nat
}.

(** A session up to the request for the email address: a recurring
    need, a served city, fifteen people. *)
Definition session_until_email : list Event :=
  [ Invoke Greeting;
    UserSays "I need daily lunch catering"; Invoke Discovery;
    UserSays "We are in Boston"; Invoke Location;
    UserSays "next month"; Invoke Timing;
    UserSays "15 people"; Invoke Scale;
    UserSays "Daily, Monday-Friday"; Invoke Frequency;
    UserSays "Italian, Asian"; Invoke Preferences;
    Invoke RestaurantPartners;
    UserSays "yes connect me"; Invoke ContactCapture;
    UserSays "sarah.johnson@techcorp.com" ].

(** A sales address for the examples. *)
Definition example_sales_email : string := "sales@mealoutpost.com".

(** The world that session ends in. *)
Definition world_until_email : World :=
  world_of (run example_sales_email session_until_email (fresh initial_state)).

(** The stages up to and including the scale stage. *)
Definition up_to_scale (stage : string) : bool :=
  Py.mem stage ["greeting"; "discovery"; "location"; "timing"; "scale"].

(** Headcount and [meets_minimum] are still unset while the session has
    not passed the scale stage. *)
Definition unset_before_scale (w : World) : Prop :=
  up_to_scale (conversation_stage (state w)) = true ->
  headcount (state w) = None /\ meets_minimum (state w) = None.

(** A state at the scale stage whose last message is [text]. *)
Definition asked_headcount (text : string) : World :=
  fresh (set_conversation_stage "scale"
           (set_messages [HumanMessage text] initial_state)).

(** The headcount is known and at least 10. *)
Definition ten_or_more (headcount : option Z) : Prop :=
  exists h, headcount = Some h /\ 10 <= h.

(** The three ways an invocation of node [n] can go. *)
Inductive invocation (n : StageNode) (w : World) : Outcome unit -> Prop :=
| skipped :
    conversation_stage (state w) <> node_stage n ->
    invocation n w (Returned tt w)
| no_transcript :
    conversation_stage (state w) = node_stage n ->
    n <> Greeting ->
    messages (state w) = [] ->
    invocation n w (Raised IndexError w)
| ran (w' : World) :
    conversation_stage (state w) = node_stage n ->
    advanced n w w' ->
    invocation n w (Returned tt w').

(** The place of a stage in the pipeline; the two final stages share
    the last place, and a text that is no stage comes after them. *)
Definition stage_rank (stage : string) : nat :=
  Py.dict_get
    [("greeting", 0); ("discovery", 1); ("location", 2); ("timing", 3);
     ("scale", 4); ("frequency", 5); ("preferences", 6);
     ("restaurant_partners", 7); ("contact_capture", 8);
     ("email_collection", 9); ("handoff", 10); ("complete", 11);
     ("end", 11)]%nat stage 12%nat.

(** The thirteen stages the nodes know. *)
Definition known_stages : list string :=
  ["greeting"; "discovery"; "location"; "timing"; "scale"; "frequency";
   "preferences"; "restaurant_partners"; "contact_capture";
   "email_collection"; "handoff"; "complete"; "end"].

(** The stages reached through the email collection. *)
Definition after_email (stage : string) : bool :=
  Py.mem stage ["handoff"; "complete"].

(** The keys no node assigns to. *)
Definition untouched_keys (s s' : ConversationState) : Prop :=
  dietary_requirements s' = dietary_requirements s
  /\ contact_name s' = contact_name s
  /\ contact_phone s' = contact_phone s
  /\ notes s' = notes s.

(** The keys written at the email collection. *)
Definition handoff_keys (s : ConversationState)
  : bool * option string * option string :=
  (ready_for_handoff s, qualification_status s, contact_email s).

(** Which keys the body of node [n] leaves alone, and what it does to
    the ones it writes. *)
Record framed (n : StageNode) (w w' : World) : Prop := {
  fr_untouched : untouched_keys (state w) (state w');
  fr_user_need :
    match n with
    | Discovery =>
        In (user_need (state w'))
           [Some "one-time"; Some "recurring"; Some "exploring"]
    | _ => user_need (state w') = user_need (state w)
    end;
  fr_location :
    n <> Location ->
    location_city (state w') = location_city (state w)
    /\ location_state (state w') = location_state (state w)
    /\ is_in_service_area (state w') = is_in_service_area (state w);
  fr_timing : n <> Timing -> timing (state w') = timing (state w);
  fr_frequency :
    match n with
    | Frequency => frequency (state w') <> None
    | _ => frequency (state w') = frequency (state w)
    end;
  fr_preferences :
    n <> Preferences ->
    cuisine_preferences (state w') = cuisine_preferences (state w);
  fr_handoff :
    match n with
    | EmailCollection =>
        ready_for_handoff (state w') = true
        /\ qualification_status (state w') <> None
        /\ contact_email (state w') <> None
    | _ => handoff_keys (state w') = handoff_keys (state w)
    end;
  fr_route :
    n = Scale ->
    (conversation_stage (state w') = "frequency"
     <-> user_need (state w) = Some "recurring");
  fr_one_message :
    exists extra,
      messages (state w') = (messages (state w) ++ extra)%list
      /\ (List.length extra <= 1)%nat
      /\ Forall (fun m => role m = AI) extra
}.

(** What holds of the state along a run from the initial state. *)
Record reachable_invariant (w : World) : Prop := {
  ri_stage : In (conversation_stage (state w)) known_stages;
  ri_handoff :
    if after_email (conversation_stage (state w))
    then ready_for_handoff (state w) = true
         /\ qualification_status (state w) <> None
         /\ contact_email (state w) <> None
         /\ notifications w = 1%nat
    else ready_for_handoff (state w) = false
         /\ qualification_status (state w) = None
         /\ contact_email (state w) = None
         /\ notifications w = 0%nat;
  ri_frequency_stage :
    conversation_stage (state w) = "frequency" ->
    user_need (state w) = Some "recurring";
  ri_frequency_unset :
    up_to_scale (conversation_stage (state w)) = true ->
    frequency (state w) = None;
  ri_frequency :
    frequency (state w) <> None -> user_need (state w) = Some "recurring"
}.

(** The last character of a text. *)
Fixpoint last_char (s : string) : option ascii :=
  match s with
  | EmptyString => None
  | String c EmptyString => Some c
  | String _ s' => last_char s'
  end.

(** The first character of a text. *)
Definition first_char (s : string) : option ascii :=
  match s with
  | EmptyString => None
  | String c _ => Some c
  end.

(** A state at [stage] whose transcript is the one message [text]. *)
Definition at_stage (stage text : string) : World :=
  fresh (set_conversation_stage stage
           (set_messages [HumanMessage text] initial_state)).

(** The San Francisco row of [SERVICE_AREAS]. *)
Definition san_francisco : Tools.ServiceArea :=
  {| Tools.area_city := "San Francisco"; Tools.area_state := "CA";
     Tools.area_lead_time_hours := 48; Tools.area_restaurant_count := 22;
     Tools.area_notes :=
       Some "SF proper and nearby cities like Oakland, Berkeley" |}.

End Session.

(* ================================================================== *)
(** ** The specification's reading of the scorer

    These definitions follow the wording of the specification, not the
    code; the theorems below compare the two. *)

Module Spec.

(** 50 when in the service area, else 0. *)
Definition area_points (is_in_service_area : option bool) : Z :=
  match is_in_service_area with Some true => 50 | _ => 0 end.

(** 30 for a known headcount of at least 20, else 15 for a known
    headcount of at least 10, else 0. *)
Definition headcount_points (headcount : option Z) : Z :=
  match headcount with
  | Some h => if 20 <=? h then 30 else if 10 <=? h then 15 else 0
  | None => 0
  end.

(** 20 for 'recurring', 10 for 'one-time', else 0. *)
Definition need_points (user_need : option string) : Z :=
  match user_need with
  | Some "recurring" => 20
  | Some "one-time" => 10
  | _ => 0
  end.

Definition total (is_in_service_area : option bool) (headcount : option Z)
                 (user_need : option string) : Z :=
  area_points is_in_service_area + headcount_points headcount
  + need_points user_need.

(** The order of the area factor: not in the area, then in it. *)
Definition area_rank (is_in_service_area : option bool) : nat :=
  match is_in_service_area with Some true => 1 | _ => 0 end.

(** The tiers of the headcount factor: unknown or below 10, then 10 and
    more, then 20 and more. *)
Definition headcount_tier (headcount : option Z) : nat :=
  match headcount with
  | Some h => if 20 <=? h then 2 else if 10 <=? h then 1 else 0
  | None => 0
  end.

(** The order of the need factor: exploring or unknown, then one-time,
    then recurring. *)
Definition need_rank (user_need : option string) : nat :=
  match user_need with
  | Some "recurring" => 2
  | Some "one-time" => 1
  | _ => 0
  end.

(** [meets_minimum] as the data model derives it from [headcount]. *)
Definition meets_minimum_of (headcount : option Z) : option bool :=
  match headcount with
  | Some h => Some (20 <=? h)
  | None => None
  end.

End Spec.

(* ================================================================== *)
(** ** Text primitives: basic facts *)

Section TextFacts.

Lemma digit_value_nonneg (c : ascii) : 0 <= Py.digit_value c.
Proof. unfold Py.digit_value. lia. Qed.

Lemma int_from_nonneg (s : string) :
  forall acc, 0 <= acc -> 0 <= Py.int_from acc s.
Proof.
  induction s as [|c s IH]; intros acc Hacc; cbn [Py.int_from]; [assumption|].
  apply IH. pose proof (digit_value_nonneg c). lia.
Qed.

(** A parsed digit run never denotes a negative number. *)
Lemma int_nonneg (s : string) : 0 <= Py.int s.
Proof. apply int_from_nonneg. lia. Qed.

End TextFacts.

(* ================================================================== *)
(** ** The qualification scorer *)

Section Scorer.

Import Tools.

Ltac status_cases sc :=
  unfold status_of;
  destruct (Z.geb_spec sc 70) as [G70|G70];
  [| destruct (Z.geb_spec sc 40) as [G40|G40]];
  (split; [ intros E; first [discriminate E | lia] | intros L; first [reflexivity | lia] ]).

Lemma status_of_qualified (sc : Z) : status_of sc = "Qualified" <-> 70 <= sc.
Proof. status_cases sc. Qed.

Lemma status_of_maybe (sc : Z) : status_of sc = "Maybe" <-> 40 <= sc < 70.
Proof. status_cases sc. Qed.

Lemma status_of_not_qualified (sc : Z) :
  status_of sc = "Not Qualified" <-> sc < 40.
Proof. status_cases sc. Qed.

(** The points each step adds, read off the code. *)
Lemma service_area_step_points (a : option bool) (acc : Acc) :
  fst (service_area_step a acc) = fst acc + Spec.area_points a.
Proof. destruct a as [[|]|]; simpl; lia. Qed.

Lemma headcount_step_points (h : option Z) (acc : Acc) :
  fst (headcount_step h 20 acc) = fst acc + Spec.headcount_points h.
Proof.
  unfold headcount_step, Spec.headcount_points, truthy, truthy_optional,
    truthy, truthy_int.
  destruct h as [n|]; [|cbn; lia].
  destruct (Z.eqb_spec n 0) as [->|Hn]; cbn [negb]; [cbn; lia|].
  destruct (Z.geb_spec n 20), (Z.leb_spec 20 n); try lia; [cbn; lia|].
  destruct (Z.geb_spec n 10), (Z.leb_spec 10 n); try lia; cbn; lia.
Qed.

Ltac split_literal_match :=
  repeat match goal with
         | |- context [match ?x with _ => _ end] =>
             destruct x; try reflexivity; try congruence
         end.

Lemma need_points_other (n : string) :
  n <> "recurring" -> n <> "one-time" -> Spec.need_points (Some n) = 0.
Proof. intros Hr Ho. unfold Spec.need_points. split_literal_match. Qed.

Lemma need_rank_other (n : string) :
  n <> "recurring" -> n <> "one-time" -> Spec.need_rank (Some n) = 0%nat.
Proof. intros Hr Ho. unfold Spec.need_rank. split_literal_match. Qed.

Lemma need_step_points (u : option string) (acc : Acc) :
  fst (need_step u acc) = fst acc + Spec.need_points u.
Proof.
  destruct u as [n|]; [|cbn; lia].
  unfold need_step.
  destruct (String.eqb_spec n "recurring") as [->|Hr]; [cbn; lia|].
  destruct (String.eqb_spec n "one-time") as [->|Ho]; [cbn; lia|].
  rewrite (need_points_other n Hr Ho). lia.
Qed.

Lemma score_is_total (a : option bool) (h : option Z) (u : option string) :
  score (calculate_lead_score a h u 20) = Spec.total a h u.
Proof.
  unfold calculate_lead_score, Spec.total; simpl score.
  rewrite need_step_points, headcount_step_points, service_area_step_points.
  simpl; lia.
Qed.

(** C1.  With the default minimum order size of 20 the score is the sum
    of the area points (50 or 0), the headcount points (30 from 20 up,
    15 from 10 up, else 0) and the need points (20 for recurring, 10 for
    one-time, else 0); the status is Qualified exactly from 70 up, Maybe
    exactly from 40 to 69 and Not Qualified exactly below 40; and the
    call on (true, 50, recurring) has status Qualified, score 100 and
    three reasons.  The result is a function of the arguments alone. *)
Theorem calculate_lead_score_default (a : option bool) (h : option Z)
                                     (u : option string) :
  let r := calculate_lead_score a h u default_minimum_order_size in
  score r = Spec.total a h u
  /\ (status r = "Qualified" <-> 70 <= score r)
  /\ (status r = "Maybe" <-> 40 <= score r < 70)
  /\ (status r = "Not Qualified" <-> score r < 40)
  /\ (let r0 := calculate_lead_score (Some true) (Some 50) (Some "recurring")
                  default_minimum_order_size in
      status r0 = "Qualified" /\ score r0 = 100
      /\ List.length (reasons r0) = 3%nat).
Proof.
  cbv zeta. split; [apply score_is_total|].
  split; [apply status_of_qualified|].
  split; [apply status_of_maybe|].
  split; [apply status_of_not_qualified|].
  vm_compute. repeat split.
Qed.

(** *** The headcount step *)

Lemma need_step_appends (u : option string) :
  exists pts rs, forall acc : Acc,
    need_step u acc = (fst acc + pts, (snd acc ++ rs)%list).
Proof.
  destruct u as [n|]; unfold need_step, add.
  - destruct (n =? "recurring")%string; [eauto|].
    destruct (n =? "one-time")%string; [eauto|].
    exists 0, []. intros [sc rs]; cbn. now rewrite Z.add_0_r, app_nil_r.
  - exists 0, []. intros [sc rs]; cbn. now rewrite Z.add_0_r, app_nil_r.
Qed.

Lemma headcount_step_zero (m : Z) (acc : Acc) :
  headcount_step (Some 0) m acc = acc.
Proof. reflexivity. Qed.

Lemma headcount_step_nonzero (n m : Z) (acc : Acc) :
  n <> 0 ->
  headcount_step (Some n) m acc =
    if n >=? m
    then add 30 ("Meets minimum size (" ++ Py.str n ++ " people)") acc
    else if n >=? 10
    then add 15 ("Below preferred minimum but substantial ("
                 ++ Py.str n ++ " people)") acc
    else add 0 ("Small order size (" ++ Py.str n ++ " people)") acc.
Proof.
  intros Hn. unfold headcount_step, truthy, truthy_optional, truthy, truthy_int.
  destruct (Z.eqb_spec n 0); [contradiction|reflexivity].
Qed.

Lemma headcount_step_appends_one (n m : Z) :
  n <> 0 ->
  exists pts reason, forall acc : Acc,
    headcount_step (Some n) m acc = add pts reason acc.
Proof.
  intros Hn.
  destruct (n >=? m) eqn:Em; [|destruct (n >=? 10) eqn:E10];
    eexists _, _; intros acc; rewrite (headcount_step_nonzero n m acc Hn), Em;
    try rewrite E10; reflexivity.
Qed.

(** C4, as the code has it.  For a known headcount other than 0 the
    step adds 30 points and a 'Meets minimum size' reason when the
    headcount reaches the minimum order size, else 15 points and a
    'Below preferred minimum but substantial' reason when it reaches 10,
    else no points and a 'Small order size' reason: exactly one reason
    in each case.  For an unknown headcount and for headcount 0 the step
    leaves score and reasons as they are. *)
Theorem headcount_step_cases (n m : Z) (acc : Acc) :
  (n <> 0 -> m <= n ->
     headcount_step (Some n) m acc
     = add 30 ("Meets minimum size (" ++ Py.str n ++ " people)") acc)
  /\ (n <> 0 -> n < m -> 10 <= n ->
        headcount_step (Some n) m acc
        = add 15 ("Below preferred minimum but substantial ("
                  ++ Py.str n ++ " people)") acc)
  /\ (n <> 0 -> n < m -> n < 10 ->
        headcount_step (Some n) m acc
        = add 0 ("Small order size (" ++ Py.str n ++ " people)") acc)
  /\ headcount_step (Some 0) m acc = acc
  /\ headcount_step None m acc = acc
  /\ (forall a u, n <> 0 ->
        List.length (reasons (calculate_lead_score a (Some n) u m))
        = S (List.length (reasons (calculate_lead_score a None u m))))
  /\ (forall a u, calculate_lead_score a (Some 0) u m
                  = calculate_lead_score a None u m).
Proof.
  repeat split.
  - intros Hn Hm. rewrite (headcount_step_nonzero n m acc Hn).
    destruct (Z.geb_spec n m); [reflexivity|lia].
  - intros Hn Hm H10. rewrite (headcount_step_nonzero n m acc Hn).
    destruct (Z.geb_spec n m); [lia|].
    destruct (Z.geb_spec n 10); [reflexivity|lia].
  - intros Hn Hm H10. rewrite (headcount_step_nonzero n m acc Hn).
    destruct (Z.geb_spec n m); [lia|].
    destruct (Z.geb_spec n 10); [lia|reflexivity].
  - intros a u Hn. unfold calculate_lead_score; cbn [reasons].
    destruct (headcount_step_appends_one n m Hn) as (pts & reason & Hstep).
    destruct (need_step_appends u) as (p & rs & Hneed).
    rewrite !Hneed, Hstep. unfold add; cbn [fst snd headcount_step truthy
      truthy_optional]. rewrite !length_app. cbn. lia.
Qed.

(** C4, as the claim states it, fails at headcount 0: the headcount is
    known, yet the reasons hold no 'Small order size' entry, only the
    area reason and the need reason. *)
Lemma headcount_zero_appends_no_reason :
  reasons (calculate_lead_score (Some true) (Some 0) (Some "recurring") 20)
  = ["In service area"; "Recurring need (high value)"]
  /\ headcount_step (Some 0) 20 (50, ["In service area"])
     = (50, ["In service area"]).
Proof. split; reflexivity. Qed.

Lemma headcount_step_cases_witness :
  headcount_step (Some 25) 20 (50, ["In service area"])
  = add 30 ("Meets minimum size (" ++ Py.str 25 ++ " people)")
        (50, ["In service area"]).
Proof.
  apply (proj1 (headcount_step_cases 25 20 (50, ["In service area"]))); lia.
Defined.

(** *** Monotonicity *)

Lemma area_points_rank (a : option bool) :
  Spec.area_points a = 50 * Z.of_nat (Spec.area_rank a).
Proof. destruct a as [[|]|]; reflexivity. Qed.

Lemma headcount_points_tier (h : option Z) :
  Spec.headcount_points h = 15 * Z.of_nat (Spec.headcount_tier h).
Proof.
  destruct h as [n|]; [|reflexivity]. unfold Spec.headcount_points,
    Spec.headcount_tier.
  destruct (20 <=? n); [reflexivity|]. destruct (10 <=? n); reflexivity.
Qed.

Lemma need_points_rank (u : option string) :
  Spec.need_points u = 10 * Z.of_nat (Spec.need_rank u).
Proof.
  destruct u as [n|]; [|reflexivity].
  destruct (String.eqb_spec n "recurring") as [->|Hr]; [reflexivity|].
  destruct (String.eqb_spec n "one-time") as [->|Ho]; [reflexivity|].
  now rewrite need_points_other, need_rank_other.
Qed.

(** A larger headcount is never in a lower tier. *)
Lemma headcount_tier_mono (h1 h2 : Z) :
  h1 <= h2 ->
  (Spec.headcount_tier (Some h1) <= Spec.headcount_tier (Some h2))%nat.
Proof.
  intros Hle. unfold Spec.headcount_tier.
  destruct (Z.leb_spec 20 h1), (Z.leb_spec 20 h2),
           (Z.leb_spec 10 h1), (Z.leb_spec 10 h2); lia.
Qed.

(** C7.  With the other two arguments fixed, the score does not go down
    when the area factor goes from out-of-area to in-area, when the
    headcount moves to a higher tier (unknown or below 10, then 10 and
    more, then 20 and more), or when the need goes from exploring or
    unknown to one-time or from one-time to recurring. *)
Theorem score_monotone_in_each_factor :
  (forall a1 a2 h u,
      (Spec.area_rank a1 <= Spec.area_rank a2)%nat ->
      score (calculate_lead_score a1 h u 20)
      <= score (calculate_lead_score a2 h u 20))
  /\ (forall a h1 h2 u,
        (Spec.headcount_tier h1 <= Spec.headcount_tier h2)%nat ->
        score (calculate_lead_score a h1 u 20)
        <= score (calculate_lead_score a h2 u 20))
  /\ (forall a h u1 u2,
        (Spec.need_rank u1 <= Spec.need_rank u2)%nat ->
        score (calculate_lead_score a h u1 20)
        <= score (calculate_lead_score a h u2 20)).
Proof.
  repeat split; intros; rewrite !score_is_total; unfold Spec.total;
    rewrite !area_points_rank, !headcount_points_tier, !need_points_rank; lia.
Qed.

Lemma score_monotone_in_each_factor_witness :
  score (calculate_lead_score (Some false) (Some 15) (Some "one-time") 20)
  <= score (calculate_lead_score (Some true) (Some 15) (Some "one-time") 20)
  /\ score (calculate_lead_score (Some true) (Some 9) (Some "one-time") 20)
     <= score (calculate_lead_score (Some true) (Some 12) (Some "one-time") 20)
  /\ score (calculate_lead_score (Some true) (Some 15) (Some "one-time") 20)
     <= score (calculate_lead_score (Some true) (Some 15) (Some "recurring") 20).
Proof.
  destruct score_monotone_in_each_factor as (Harea & Hcount & Hneed).
  split; [apply Harea; vm_compute; lia|].
  split; [apply Hcount; vm_compute; lia | apply Hneed; vm_compute; lia].
Defined.

End Scorer.

(* ================================================================== *)
(** ** The partner search *)

Lemma in_firstn_in {A} (x : A) (n : nat) (l : list A) :
  In x (firstn n l) -> In x l.
Proof.
  intros Hin. rewrite <- (firstn_skipn n l). apply in_or_app. now left.
Qed.

Section PartnerSearchFacts.

Import Tools.

Variable table : list RestaurantPartner.
Variable to_dict : RestaurantPartner -> Dict.
Variable city_arg : string.
Variable cuisine_type_arg dietary_needs : option (list string).

Lemma partners_loop_firstn (capacity_arg : option string) (limit : Z)
      (rest : list RestaurantPartner) :
  forall matches,
    partners_loop to_dict city_arg cuisine_type_arg dietary_needs capacity_arg
                  limit rest matches
    = (matches
       ++ firstn (remaining limit matches)
            (map to_dict (filter (keeps city_arg cuisine_type_arg dietary_needs
                                        capacity_arg) rest)))%list.
Proof.
  induction rest as [|r rest IH]; intros matches; cbn [partners_loop filter map].
  - now rewrite firstn_nil, app_nil_r.
  - unfold keeps at 1.
    destruct (city_ok city_arg r); cbn [negb andb]; [|apply IH].
    destruct (cuisine_ok cuisine_type_arg r); cbn [negb andb]; [|apply IH].
    destruct (dietary_ok dietary_needs r); cbn [negb andb]; [|apply IH].
    destruct (capacity_ok capacity_arg r); cbn [negb andb]; [|apply IH].
    cbn [map]. rewrite length_app; cbn [List.length].
    destruct (Z.geb_spec (Z.of_nat (List.length matches + 1)) limit) as [Hge|Hlt].
    + replace (remaining limit matches) with 1%nat by (unfold remaining; lia).
      reflexivity.
    + rewrite IH, <- app_assoc. cbn [app]. f_equal.
      replace (remaining limit matches)
        with (S (remaining limit (matches ++ [to_dict r])))
        by (unfold remaining; rewrite length_app; cbn [List.length]; lia).
      reflexivity.
Qed.

(** The results are the first matches in table order; their number is
    the limit, or one when the limit is below one. *)
Lemma partner_search_first_matches (capacity_arg : option string) (limit : Z) :
  get_restaurant_partners table to_dict city_arg cuisine_type_arg dietary_needs
                          capacity_arg limit
  = firstn (Z.to_nat (Z.max 1 limit))
      (map to_dict (filter (keeps city_arg cuisine_type_arg dietary_needs
                                  capacity_arg) table)).
Proof.
  unfold get_restaurant_partners. rewrite partners_loop_firstn.
  cbn [app]. f_equal. unfold remaining. cbn [List.length]. f_equal. lia.
Qed.

(** From limit 1 up, the search returns at most [limit] results. *)
Lemma partner_search_at_most_limit (capacity_arg : option string) (limit : Z) :
  1 <= limit ->
  Z.of_nat (List.length (get_restaurant_partners table to_dict city_arg
                           cuisine_type_arg dietary_needs capacity_arg limit))
  <= limit.
Proof.
  intros Hlimit. rewrite partner_search_first_matches.
  pose proof (firstn_le_length (Z.to_nat (Z.max 1 limit))
                (map to_dict (filter (keeps city_arg cuisine_type_arg
                                            dietary_needs capacity_arg) table))).
  lia.
Qed.

(** Below limit 1, the search returns one result as soon as a row
    passes the tests. *)
Lemma partner_search_below_one (capacity_arg : option string) (limit : Z)
      (r : RestaurantPartner) :
  limit < 1 ->
  In r table ->
  keeps city_arg cuisine_type_arg dietary_needs capacity_arg r = true ->
  List.length (get_restaurant_partners table to_dict city_arg cuisine_type_arg
                 dietary_needs capacity_arg limit) = 1%nat.
Proof.
  intros Hlimit Hin Hkeeps. rewrite partner_search_first_matches.
  replace (Z.to_nat (Z.max 1 limit)) with 1%nat by lia.
  assert (In r (filter (keeps city_arg cuisine_type_arg dietary_needs
                              capacity_arg) table)) as Hr
      by (apply filter_In; now split).
  destruct (filter (keeps city_arg cuisine_type_arg dietary_needs capacity_arg)
              table); [contradiction|reflexivity].
Qed.

(** Every result is the dict of a table row whose city holds the
    lowered, stripped query city. *)
Lemma partner_search_same_city (capacity_arg : option string) (limit : Z)
      (d : Dict) :
  In d (get_restaurant_partners table to_dict city_arg cuisine_type_arg
                                dietary_needs capacity_arg limit) ->
  exists r, In r table /\ d = to_dict r
            /\ Py.contains (Py.strip (Py.lower city_arg)) (Py.lower (city r)) = true.
Proof.
  rewrite partner_search_first_matches. intros Hin.
  apply in_firstn_in, in_map_iff in Hin. destruct Hin as (r & <- & Hr).
  apply filter_In in Hr. destruct Hr as [Hr Hkeeps].
  exists r. repeat split; [assumption|].
  unfold keeps in Hkeeps. rewrite !andb_true_iff in Hkeeps.
  now destruct Hkeeps as [[[Hcity _] _] _].
Qed.

(** *** An unrecognised capacity *)

Lemma capacity_rank_nonneg (k : string) : 0 <= Py.dict_get capacity_order k 0.
Proof.
  unfold capacity_order; cbn [Py.dict_get].
  repeat match goal with |- context [String.eqb ?a ?b] => destruct (String.eqb a b) end;
    lia.
Qed.

Lemma capacity_rank_unknown (k : string) :
  ~ In k ["small"; "medium"; "large"] -> Py.dict_get capacity_order k 0 = 0.
Proof.
  intros Hk. unfold capacity_order; cbn [Py.dict_get].
  destruct (String.eqb_spec k "small") as [->|_]; [exfalso; apply Hk; cbn; auto|].
  destruct (String.eqb_spec k "medium") as [->|_]; [exfalso; apply Hk; cbn; auto|].
  destruct (String.eqb_spec k "large") as [->|_]; [exfalso; apply Hk; cbn; auto|].
  reflexivity.
Qed.

Lemma capacity_ok_unknown (cap : string) (r : RestaurantPartner) :
  ~ In (Py.lower cap) ["small"; "medium"; "large"] ->
  capacity_ok (Some cap) r = true.
Proof.
  intros Hcap. unfold capacity_ok.
  destruct (truthy (Some cap)); [|reflexivity].
  rewrite (capacity_rank_unknown _ Hcap).
  pose proof (capacity_rank_nonneg (Py.lower (capacity r))) as Hr.
  destruct (Z.gtb_spec 0 (Py.dict_get capacity_order (Py.lower (capacity r)) 0));
    [lia|reflexivity].
Qed.

Lemma partners_loop_unknown_capacity (cap : string) (limit : Z)
      (rest : list RestaurantPartner) :
  ~ In (Py.lower cap) ["small"; "medium"; "large"] ->
  forall matches,
    partners_loop to_dict city_arg cuisine_type_arg dietary_needs (Some cap)
                  limit rest matches
    = partners_loop to_dict city_arg cuisine_type_arg dietary_needs None
                    limit rest matches.
Proof.
  intros Hcap. induction rest as [|r rest IH]; intros matches;
    cbn [partners_loop]; [reflexivity|].
  rewrite (capacity_ok_unknown cap r Hcap).
  change (capacity_ok None r) with true.
  destruct (negb (city_ok city_arg r)); [apply IH|].
  destruct (negb (cuisine_ok cuisine_type_arg r)); [apply IH|].
  destruct (negb (dietary_ok dietary_needs r)); [apply IH|].
  cbn [negb].
  destruct (Z.of_nat (List.length (matches ++ [to_dict r])) >=? limit);
    [reflexivity|apply IH].
Qed.

(** C10.  A capacity argument that is none of small, medium and large
    (whatever its case) gives the same results as no capacity argument,
    for every table, city, cuisine list, dietary list and limit. *)
Theorem unrecognised_capacity_filters_nothing (cap : string) (limit : Z) :
  ~ In (Py.lower cap) ["small"; "medium"; "large"] ->
  get_restaurant_partners table to_dict city_arg cuisine_type_arg dietary_needs
                          (Some cap) limit
  = get_restaurant_partners table to_dict city_arg cuisine_type_arg
                            dietary_needs None limit.
Proof.
  intros Hcap. unfold get_restaurant_partners.
  now apply partners_loop_unknown_capacity.
Qed.

End PartnerSearchFacts.

Lemma unrecognised_capacity_filters_nothing_witness :
  Tools.get_restaurant_partners Tools.RESTAURANT_PARTNERS Tools.entry "new york"
    (Some ["healthy"]) None (Some "Huge") Tools.default_limit
  = Tools.get_restaurant_partners Tools.RESTAURANT_PARTNERS Tools.entry "new york"
      (Some ["healthy"]) None None Tools.default_limit.
Proof.
  apply (unrecognised_capacity_filters_nothing Tools.RESTAURANT_PARTNERS
           Tools.entry "new york" (Some ["healthy"]) None "Huge"
           Tools.default_limit).
  cbn. intros [H|[H|[H|[]]]]; discriminate H.
Defined.

(** C8 at limit 0.  The three New York City rows all pass the city test,
    and the search with limit 0 returns the first of them: one result,
    which is more than the limit. *)
Theorem partner_search_limit_zero :
  map (fun d => Py.dict_get d "name" "")
      (Tools.get_restaurant_partners Tools.RESTAURANT_PARTNERS Tools.entry
         "New York City" None None None 0)
  = ["Ben's Fast Food"]
  /\ 0 < Z.of_nat (List.length
                     (Tools.get_restaurant_partners Tools.RESTAURANT_PARTNERS
                        Tools.entry "New York City" None None None 0)).
Proof. split; vm_compute; reflexivity. Qed.

(* ================================================================== *)
(** ** The stage machine *)

Lemma rev_empty {A} (l : list A) : rev l = [] -> l = [].
Proof.
  intros H. apply (f_equal (@rev A)) in H. now rewrite rev_involutive in H.
Qed.

Lemma rev_cons_nonempty {A} (l : list A) (x : A) (t : list A) :
  rev l = x :: t -> l <> [].
Proof. intros H ->. discriminate H. Qed.

Lemma snoc_nonempty {A} (l : list A) (x : A) : (l ++ [x])%list <> [].
Proof. destruct l; discriminate. Qed.

Section StageMachine.

Import Agent.
Import Session.

Variable sales_email : string.

Lemma location_loop_result (cities : list (string * string)) (m : string)
      (w : World) :
  location_loop cities m w = Returned None w
  \/ exists found st,
       In found (map (fun entry => Py.title (fst entry)) cities)
       /\ location_loop cities m w = Returned (Some found) (located found st w).
Proof.
  induction cities as [|[city st] cities IH]; cbn [location_loop]; [now left|].
  destruct (Py.contains city m).
  - right. exists (Py.title city), st. split; [now left|reflexivity].
  - destruct IH as [IH|(found & st' & Hin & IH)]; [now left|].
    right. exists found, st'. split; [now right|exact IH].
Qed.

(** No key of [service_cities] has an empty title: a city that was found
    is truthy. *)
Lemma service_city_truthy (found : string) :
  In found (map (fun entry => Py.title (fst entry)) service_cities) ->
  truthy (Some found) = true.
Proof.
  assert (Forall (fun f => truthy (Some f) = true)
            (map (fun entry => Py.title (fst entry)) service_cities)) as Hall.
  { vm_compute. repeat constructor. }
  rewrite Forall_forall in Hall. apply Hall.
Qed.

Ltac unfold_node :=
  unfold greeting_node, discovery_node, location_node, timing_node,
    scale_node, frequency_node, preferences_node,
    get_restaurant_partners_node, contact_capture_node,
    email_collection_node, handoff_node, last_content, append_message,
    call_send_notification, Tools.send_notification,
    bind, read, assign, ret, raise.

Ltac world_fields w :=
  destruct w as [[msgs need city st tm hc fr cp dr area mm qs cn ce cph
                  stage rfh nts] cons].

Ltac stage_guard lit :=
  match goal with
  | |- context [String.eqb ?p lit] =>
      destruct (String.eqb_spec p lit) as [->|Hne]; cbn [negb];
      [| apply skipped; exact Hne]
  end.

Ltac transcript :=
  cbn [state console conversation_stage messages];
  match goal with
  | |- context [rev ?l] =>
      let E := fresh "Erev" in
      destruct (rev l) as [|last_msg before] eqn:E;
      [ apply rev_empty in E; subst l; apply no_transcript;
        [reflexivity | discriminate | reflexivity]
      | apply rev_cons_nonempty in E ]
  end.

Ltac advanced_facts :=
  split; cbn;
  [ auto
  | first [ eexists; reflexivity | exists []; symmetry; apply app_nil_r ]
  | first [ apply snoc_nonempty | assumption ]
  | first [ reflexivity | eexists; reflexivity ]
  | first [ intros _; split; reflexivity | intros C; contradiction C; reflexivity ]
  | unfold minimum_derived; cbn; auto ].

Ltac body_ran := apply ran; [reflexivity|]; advanced_facts.

(** Every invocation of every node is skipped, stops at the empty
    transcript, or runs the body with the effects of [advanced]. *)
Lemma node_invocation (n : StageNode) (w : World) :
  invocation n w (node_fn sales_email n w).
Proof.
  world_fields w.
  destruct n; cbn [node_fn]; unfold_node;
    cbn [state console conversation_stage messages].
  - stage_guard "greeting". body_ran.
  - stage_guard "discovery". transcript.
    destruct (any_in one_time_words _); [|destruct (any_in recurring_words _)];
      body_ran.
  - stage_guard "location". transcript.
    match goal with
    | |- context [location_loop ?cs ?m ?w] =>
        destruct (location_loop_result cs m w) as [E|(c & s & Hin & E)];
        rewrite E; [| rewrite (service_city_truthy c Hin)]
    end; cbn; body_ran.
  - stage_guard "timing". transcript. body_ran.
  - stage_guard "scale". transcript.
    destruct (Py.findall_digits _) as [|first others]; cbn;
      (destruct need as [nd|]; [destruct (nd =? "recurring")%string|]);
      body_ran.
  - stage_guard "frequency". transcript. body_ran.
  - stage_guard "preferences". transcript. body_ran.
  - stage_guard "restaurant_partners". body_ran.
  - stage_guard "contact_capture". transcript.
    match goal with |- context [if ?b then _ else _] => destruct b end;
      body_ran.
  - stage_guard "email_collection". transcript. body_ran.
  - stage_guard "handoff". body_ran.
Qed.

(** C5.  A node invoked on a state whose stage is not the node's own
    returns that state as it is: no key is written, no message is
    appended and the console is not written to. *)
Theorem node_other_stage_is_noop (n : StageNode) (w : World) :
  conversation_stage (state w) <> node_stage n ->
  node_fn sales_email n w = Returned tt w.
Proof.
  intros Hstage. apply String.eqb_neq in Hstage.
  destruct n; cbn [node_fn node_stage] in *;
    unfold greeting_node, discovery_node, location_node, timing_node,
      scale_node, frequency_node, preferences_node,
      get_restaurant_partners_node, contact_capture_node,
      email_collection_node, handoff_node, bind, read;
    rewrite Hstage; reflexivity.
Qed.

(** *** Runs *)

Lemma node_stage_pre_handoff (n : StageNode) :
  n <> Handoff -> pre_handoff (node_stage n) = true.
Proof. destruct n; intros H; try reflexivity. contradiction H; reflexivity. Qed.

Lemma successor_pre_handoff (n : StageNode) (stage : string) :
  In stage (successors n) -> pre_handoff stage = true ->
  n <> EmailCollection /\ n <> Handoff.
Proof.
  destruct n; cbn [successors In]; intros Hin Hpre; split; try discriminate;
    destruct Hin as [<-|[]]; discriminate Hpre.
Qed.

(** An event on a session that satisfies the invariant returns, keeps
    the invariant and never removes a notification. *)
Lemma event_preserves (e : Event) (w : World) :
  session_invariant w ->
  exists w', do_event sales_email e w = Returned tt w'
             /\ session_invariant w'
             /\ (notifications w <= notifications w')%nat.
Proof.
  intros [Htr Huns Honce]. destruct e as [n|text]; cbn [do_event].
  - destruct (node_invocation n w) as [Hskip|Hstage Hn Hempty|w' Hstage Hadv].
    + exists w. repeat split; auto; lia.
    + exfalso. rewrite (Htr Hempty) in Hstage.
      destruct n; try discriminate Hstage. now apply Hn.
    + exists w'. destruct Hadv as [Hnext _ Hnonempty Hconsole _ _].
      assert (n = EmailCollection -> console w = []) as Hfirst.
      { intros ->. apply Huns. now rewrite Hstage. }
      repeat split.
      * intros Hempty. contradiction.
      * intros Hpre.
        destruct (successor_pre_handoff n _ Hnext Hpre) as [Hne Hnh].
        assert (console w' = console w) as ->
            by (destruct n; try exact Hconsole; contradiction).
        apply Huns. rewrite Hstage. now apply node_stage_pre_handoff.
      * unfold notifications in *.
        destruct n; try (rewrite Hconsole; exact Honce).
        destruct Hconsole as [x ->]. rewrite Hfirst by reflexivity. cbn. lia.
      * unfold notifications.
        destruct n; try (rewrite Hconsole; lia).
        destruct Hconsole as [x ->]. rewrite length_app. lia.
  - unfold append_message, bind, read, assign.
    eexists; split; [reflexivity|].
    world_fields w. cbn in *. repeat split; cbn; auto.
    intros Hempty. now apply snoc_nonempty in Hempty.
Qed.

Lemma run_preserves (events : list Event) :
  forall w, session_invariant w ->
    exists w', run sales_email events w = Returned tt w'
               /\ session_invariant w'
               /\ (notifications w <= notifications w')%nat.
Proof.
  induction events as [|e events IH]; intros w Hinv; cbn [run].
  - exists w. split; [reflexivity|]. split; [exact Hinv|lia].
  - destruct (event_preserves e w Hinv) as (w1 & He & Hinv1 & Hle1).
    destruct (IH w1 Hinv1) as (w2 & Hrun & Hinv2 & Hle2).
    exists w2. unfold bind. rewrite He.
    split; [exact Hrun|]. split; [exact Hinv2|lia].
Qed.

Lemma fresh_invariant (s : ConversationState) :
  conversation_stage s = "greeting" -> session_invariant (fresh s).
Proof.
  intros Hstage. split; cbn; auto.
Qed.

(** C6.  From a fresh state (stage greeting, not ready for handoff),
    every finite run of node invocations, with inbound messages appended
    between them in any way, returns, and the notification sink has been
    called at most once by its end; once it has been called, no further
    run calls it again. *)
Theorem notification_sent_at_most_once (s : ConversationState)
        (events : list Event) :
  conversation_stage s = "greeting" ->
  ready_for_handoff s = false ->
  exists w,
    run sales_email events (fresh s) = Returned tt w
    /\ (notifications w <= 1)%nat
    /\ (notifications w = 1%nat ->
        forall more,
          notifications (world_of (run sales_email more w)) = 1%nat).
Proof.
  intros Hstage _.
  destruct (run_preserves events (fresh s) (fresh_invariant s Hstage))
    as (w & Hrun & Hinv & _).
  exists w. split; [exact Hrun|]. split; [apply Hinv|].
  intros Hone more.
  destruct (run_preserves more w Hinv) as (w' & Hmore & Hinv' & Hle).
  rewrite Hmore. cbn [world_of]. pose proof (inv_once w' Hinv'). lia.
Qed.

(** *** What single nodes compute *)

Ltac on_last_message Hstage Hlast :=
  let earlier := fresh "earlier" in
  destruct Hlast as [earlier Hlast]; cbn in Hstage, Hlast; subst;
  unfold_node; cbn [state console conversation_stage messages];
  rewrite ?String.eqb_refl; cbn [negb state console conversation_stage messages];
  rewrite rev_unit.

Lemma scale_node_headcount (w : World) (m : Message) :
  conversation_stage (state w) = "scale" ->
  last_message_is w m ->
  exists w',
    scale_node w = Returned tt w'
    /\ match Py.findall_digits (content m) with
       | first :: _ =>
           headcount (state w') = Some (Py.int first)
           /\ meets_minimum (state w') = Some (Py.int first >=? 20)
       | [] =>
           headcount (state w') = headcount (state w)
           /\ meets_minimum (state w') = meets_minimum (state w)
       end.
Proof.
  world_fields w. intros Hstage Hlast. on_last_message Hstage Hlast.
  destruct (Py.findall_digits (content m)) as [|first others]; cbn;
    (destruct need as [nd|]; [destruct (nd =? "recurring")%string|]);
    eexists; (split; [reflexivity|]); cbn; split; reflexivity.
Qed.

Lemma event_keeps_minimum (e : Event) (w : World) :
  e <> Invoke Scale ->
  meets_minimum (state (world_of (do_event sales_email e w)))
  = meets_minimum (state w).
Proof.
  intros He. destruct e as [n|text]; cbn [do_event].
  - destruct (node_invocation n w) as [Hskip|Hstage Hn Hempty|w' Hstage Hadv];
      cbn [world_of]; try reflexivity.
    apply (adv_headcount n w w' Hadv). intros ->. now apply He.
  - world_fields w. reflexivity.
Qed.

Lemma event_keeps_derived (e : Event) (w : World) :
  minimum_derived (state w) ->
  minimum_derived (state (world_of (do_event sales_email e w))).
Proof.
  intros Hd. destruct e as [n|text]; cbn [do_event].
  - destruct (node_invocation n w) as [Hskip|Hstage Hn Hempty|w' Hstage Hadv];
      cbn [world_of]; try assumption.
    now apply (adv_derived n w w' Hadv).
  - world_fields w. exact Hd.
Qed.

Lemma run_keeps_derived (events : list Event) :
  forall w, minimum_derived (state w) ->
            minimum_derived (state (world_of (run sales_email events w))).
Proof.
  induction events as [|e events IH]; intros w Hd; cbn [run].
  - exact Hd.
  - pose proof (event_keeps_derived e w Hd) as He. unfold bind.
    destruct (do_event sales_email e w) as [[] w1|err w1]; cbn [world_of] in *.
    + now apply IH.
    + exact He.
Qed.

Lemma derived_as_specified (s : ConversationState) :
  minimum_derived s <-> meets_minimum s = Spec.meets_minimum_of (headcount s).
Proof.
  unfold minimum_derived, Spec.meets_minimum_of.
  destruct (headcount s) as [h|]; cbn [option_map]; [|tauto].
  now rewrite Z.geb_leb.
Qed.

Lemma event_keeps_unset (e : Event) (w : World) :
  unset_before_scale w ->
  unset_before_scale (world_of (do_event sales_email e w)).
Proof.
  intros Hunset. destruct e as [n|text]; cbn [do_event].
  - destruct (node_invocation n w) as [Hskip|Hstage Hn Hempty|w' Hstage Hadv];
      cbn [world_of]; try assumption.
    intros Hearly. pose proof (adv_stage n w w' Hadv) as Hnext.
    assert (n <> Scale /\ up_to_scale (node_stage n) = true) as [Hn Hbefore].
    { destruct n; cbn [successors In] in Hnext;
        repeat (destruct Hnext as [Hnext|Hnext]; try contradiction);
        rewrite <- Hnext in Hearly; try discriminate Hearly;
        split; try discriminate; reflexivity. }
    destruct (adv_headcount n w w' Hadv Hn) as [-> ->].
    apply Hunset. now rewrite Hstage.
  - world_fields w. exact Hunset.
Qed.

Lemma run_keeps_unset (events : list Event) :
  forall w, unset_before_scale w ->
            unset_before_scale (world_of (run sales_email events w)).
Proof.
  induction events as [|e events IH]; intros w Hunset; cbn [run].
  - exact Hunset.
  - pose proof (event_keeps_unset e w Hunset) as He. unfold bind.
    destruct (do_event sales_email e w) as [[] w1|err w1]; cbn [world_of] in *.
    + now apply IH.
    + exact He.
Qed.

(** C3.  When [scale_node] runs on a message with a digit run, the
    headcount is the number [h] of the first run and [meets_minimum] is
    set to whether [h] is at least 20: true from 20 up, false from 0 to
    19.  On a message without digits both keys stay as they were, and in
    a run from the initial state they were [None] until then.  No other
    node and no inbound message changes [meets_minimum]; and along every
    run from the initial state [meets_minimum] is the value derived from
    [headcount], [None] for [None]. *)
Theorem meets_minimum_is_derived :
  (forall w m,
      conversation_stage (state w) = "scale" ->
      last_message_is w m ->
      exists w',
        scale_node w = Returned tt w'
        /\ match Py.findall_digits (content m) with
           | first :: _ =>
               let h := Py.int first in
               0 <= h
               /\ headcount (state w') = Some h
               /\ meets_minimum (state w') = Some (20 <=? h)
               /\ (20 <= h -> meets_minimum (state w') = Some true)
               /\ (h < 20 -> meets_minimum (state w') = Some false)
           | [] =>
               headcount (state w') = headcount (state w)
               /\ meets_minimum (state w') = meets_minimum (state w)
           end)
  /\ (forall e w,
         e <> Invoke Scale ->
         meets_minimum (state (world_of (do_event sales_email e w)))
         = meets_minimum (state w))
  /\ (forall events,
         let w := world_of (run sales_email events (fresh initial_state)) in
         meets_minimum (state w) = Spec.meets_minimum_of (headcount (state w))
         /\ (conversation_stage (state w) = "scale" ->
             headcount (state w) = None /\ meets_minimum (state w) = None)).
Proof.
  split; [|split].
  - intros w m Hstage Hlast.
    destruct (scale_node_headcount w m Hstage Hlast) as (w' & Hrun & Hkeys).
    exists w'. split; [exact Hrun|].
    destruct (Py.findall_digits (content m)) as [|first others]; [exact Hkeys|].
    destruct Hkeys as [Hcount Hmeets]. cbv zeta.
    rewrite Z.geb_leb in Hmeets.
    split; [apply int_nonneg|]. split; [exact Hcount|]. split; [exact Hmeets|].
    rewrite Hmeets. split; intros Hh; f_equal.
    + now apply Z.leb_le.
    + now apply Z.leb_gt.
  - apply event_keeps_minimum.
  - intros events. cbv zeta. split.
    + apply derived_as_specified, run_keeps_derived. reflexivity.
    + intros Hstage.
      apply (run_keeps_unset events (fresh initial_state)).
      * intros _. split; reflexivity.
      * now rewrite Hstage.
Qed.

(** C9.  When the lowered text of the last message holds a word of the
    one-time list and a word of the recurring list, [discovery_node]
    sets [user_need] to one-time. *)
Theorem discovery_prefers_one_time (w : World) (m : Message) :
  conversation_stage (state w) = "discovery" ->
  last_message_is w m ->
  (exists word, In word one_time_words
                /\ Py.contains word (Py.lower (content m)) = true) ->
  (exists word, In word recurring_words
                /\ Py.contains word (Py.lower (content m)) = true) ->
  exists w',
    discovery_node w = Returned tt w'
    /\ user_need (state w') = Some "one-time".
Proof.
  intros Hstage Hlast Honce _.
  assert (any_in one_time_words (Py.lower (content m)) = true) as Hany
      by (apply existsb_exists; exact Honce).
  world_fields w. on_last_message Hstage Hlast. cbn [content].
  rewrite Hany. eexists; split; reflexivity.
Qed.

(** *** The status chosen at email collection *)

Lemma need_points_bounds (u : option string) : 0 <= Spec.need_points u <= 20.
Proof.
  rewrite need_points_rank.
  assert (Spec.need_rank u <= 2)%nat; [|lia].
  destruct u as [n|]; [|cbn; lia].
  destruct (String.eqb_spec n "recurring") as [->|Hr]; [cbn; lia|].
  destruct (String.eqb_spec n "one-time") as [->|Ho]; [cbn; lia|].
  rewrite need_rank_other by assumption. lia.
Qed.

Lemma handoff_status_cases (area meets : option bool) (count : option Z) :
  let q := handoff_status area meets count in
  (q = "Qualified" <-> truthy area = true /\ truthy meets = true)
  /\ (q = "Maybe" <->
        (truthy area = true /\ truthy meets = false)
        \/ (truthy area = false /\ ten_or_more count))
  /\ (q = "Not Qualified" <-> truthy area = false /\ ~ ten_or_more count).
Proof.
  cbv zeta. unfold handoff_status.
  assert (ten_or_more count
          <-> (truthy count
               && match count with Some n => n >=? 10 | None => false end)%bool
              = true) as Hten.
  { unfold ten_or_more. destruct count as [h|].
    - change (truthy (Some h)) with (negb (h =? 0)).
      destruct (Z.eqb_spec h 0), (Z.geb_spec h 10); cbn [negb andb];
        split; intros H1; try discriminate H1; try reflexivity;
        try (destruct H1 as (h' & [= <-] & Hh); lia);
        try (exists h; split; [reflexivity|lia]).
    - split; [intros (h & Hh & _); discriminate Hh | discriminate]. }
  destruct Hten as [Hten1 Hten2].
  destruct (truthy area), (truthy meets),
    (truthy count && match count with Some n => n >=? 10 | None => false end)%bool;
    cbn [andb orb]; (split; [|split]); split; intros Hx;
    try discriminate Hx; try reflexivity; intuition (try discriminate).
Qed.

Lemma email_collection_stores (w : World) (m : Message) :
  conversation_stage (state w) = "email_collection" ->
  last_message_is w m ->
  exists w',
    email_collection_node sales_email w = Returned tt w'
    /\ qualification_status (state w')
       = Some (handoff_status (is_in_service_area (state w))
                 (meets_minimum (state w)) (headcount (state w)))
    /\ contact_email (state w') = Some (Py.strip (content m))
    /\ notifications w' = S (notifications w).
Proof.
  world_fields w. intros Hstage Hlast. on_last_message Hstage Hlast.
  cbn. eexists; split; [reflexivity|]. cbn. repeat split.
  unfold notifications; cbn. rewrite length_app; cbn. lia.
Qed.

(** C2, as the code has it.  At the email-collection stage the node
    stores Qualified exactly when [is_in_service_area] and
    [meets_minimum] are both truthy, Not Qualified exactly when
    [is_in_service_area] is falsy and the headcount is not a known
    number of at least 10, and Maybe in every other case; [user_need]
    plays no part.  When [meets_minimum] is the value derived from
    [headcount], a stored Qualified and a stored Not Qualified are also
    the status the scorer gives with minimum order size 20. *)
Theorem handoff_status_rule (w : World) (m : Message) :
  conversation_stage (state w) = "email_collection" ->
  last_message_is w m ->
  exists w' q,
    email_collection_node sales_email w = Returned tt w'
    /\ qualification_status (state w') = Some q
    /\ (q = "Qualified" <->
          truthy (is_in_service_area (state w)) = true
          /\ truthy (meets_minimum (state w)) = true)
    /\ (q = "Maybe" <->
          (truthy (is_in_service_area (state w)) = true
           /\ truthy (meets_minimum (state w)) = false)
          \/ (truthy (is_in_service_area (state w)) = false
              /\ ten_or_more (headcount (state w))))
    /\ (q = "Not Qualified" <->
          truthy (is_in_service_area (state w)) = false
          /\ ~ ten_or_more (headcount (state w)))
    /\ (meets_minimum (state w) = Spec.meets_minimum_of (headcount (state w)) ->
        let scored :=
          Tools.status
            (Tools.calculate_lead_score (is_in_service_area (state w))
               (headcount (state w)) (user_need (state w)) 20) in
        (q = "Qualified" -> scored = "Qualified")
        /\ (q = "Not Qualified" -> scored = "Not Qualified")).
Proof.
  intros Hstage Hlast.
  destruct (email_collection_stores w m Hstage Hlast) as (w' & Hrun & Hq & _).
  exists w', (handoff_status (is_in_service_area (state w))
                (meets_minimum (state w)) (headcount (state w))).
  destruct (handoff_status_cases (is_in_service_area (state w))
              (meets_minimum (state w)) (headcount (state w)))
    as (Hqual & Hmaybe & Hnot).
  split; [exact Hrun|]. split; [exact Hq|].
  split; [exact Hqual|]. split; [exact Hmaybe|]. split; [exact Hnot|].
  intros Hderived. cbv zeta.
  pose proof (need_points_bounds (user_need (state w))) as Hneed.
  split; intros Hstored.
  - apply Hqual in Hstored. destruct Hstored as [Harea Hmeets].
    apply status_of_qualified.
    change (70 <= Tools.score
                    (Tools.calculate_lead_score (is_in_service_area (state w))
                       (headcount (state w)) (user_need (state w)) 20)).
    rewrite score_is_total. unfold Spec.total.
    rewrite Hderived in Hmeets.
    destruct (is_in_service_area (state w)) as [[|]|]; try discriminate Harea.
    destruct (headcount (state w)) as [h|]; try discriminate Hmeets.
    change ((20 <=? h) = true) in Hmeets.
    unfold Spec.area_points, Spec.headcount_points. rewrite Hmeets. lia.
  - apply Hnot in Hstored. destruct Hstored as [Harea Hten].
    apply status_of_not_qualified.
    change (Tools.score
              (Tools.calculate_lead_score (is_in_service_area (state w))
                 (headcount (state w)) (user_need (state w)) 20) < 40).
    rewrite score_is_total. unfold Spec.total.
    assert (Spec.area_points (is_in_service_area (state w)) = 0) as ->
        by (destruct (is_in_service_area (state w)) as [[|]|];
            [discriminate Harea|reflexivity|reflexivity]).
    assert (Spec.headcount_points (headcount (state w)) = 0) as ->; [|lia].
    unfold Spec.headcount_points.
    destruct (headcount (state w)) as [h|]; [|reflexivity].
    destruct (Z.leb_spec 20 h);
      [exfalso; apply Hten; exists h; split; [reflexivity|lia]|].
    destruct (Z.leb_spec 10 h);
      [exfalso; apply Hten; exists h; split; [reflexivity|lia]|reflexivity].
Qed.

End StageMachine.

Lemma node_other_stage_is_noop_witness :
  Agent.node_fn "sales@mealoutpost.com" Agent.EmailCollection
    (Agent.fresh Agent.initial_state)
  = Agent.Returned tt (Agent.fresh Agent.initial_state).
Proof.
  apply (node_other_stage_is_noop "sales@mealoutpost.com" Agent.EmailCollection
           (Agent.fresh Agent.initial_state)).
  cbn. discriminate.
Defined.

Lemma notification_sent_at_most_once_witness :
  exists w,
    Agent.run Session.example_sales_email
      (Session.session_until_email ++ [Agent.Invoke Agent.EmailCollection;
                                     Agent.Invoke Agent.EmailCollection])
      (Agent.fresh Agent.initial_state)
    = Agent.Returned tt w
    /\ (Agent.notifications w <= 1)%nat
    /\ (Agent.notifications w = 1%nat ->
        forall more,
          Agent.notifications
            (Session.world_of (Agent.run Session.example_sales_email more w))
          = 1%nat).
Proof.
  apply (notification_sent_at_most_once Session.example_sales_email
           Agent.initial_state); reflexivity.
Defined.

Lemma meets_minimum_is_derived_witness :
  exists w',
    Agent.scale_node (Session.asked_headcount "about 45 people") = Agent.Returned tt w'
    /\ match Py.findall_digits
               (Agent.content (Agent.HumanMessage "about 45 people")) with
       | first :: _ =>
           let h := Py.int first in
           0 <= h
           /\ Agent.headcount (Agent.state w') = Some h
           /\ Agent.meets_minimum (Agent.state w') = Some (20 <=? h)
           /\ (20 <= h -> Agent.meets_minimum (Agent.state w') = Some true)
           /\ (h < 20 -> Agent.meets_minimum (Agent.state w') = Some false)
       | [] =>
           Agent.headcount (Agent.state w')
           = Agent.headcount (Agent.state (Session.asked_headcount "about 45 people"))
           /\ Agent.meets_minimum (Agent.state w')
              = Agent.meets_minimum
                  (Agent.state (Session.asked_headcount "about 45 people"))
       end.
Proof.
  apply (proj1 (meets_minimum_is_derived Session.example_sales_email)
           (Session.asked_headcount "about 45 people")
           (Agent.HumanMessage "about 45 people")).
  - reflexivity.
  - exists []. reflexivity.
Defined.

Lemma discovery_prefers_one_time_witness :
  exists w',
    Agent.discovery_node
      {| Agent.state :=
           Agent.set_conversation_stage "discovery"
             (Agent.set_messages [Agent.HumanMessage "weekly team meeting"]
                Agent.initial_state);
         Agent.console := [] |}
    = Agent.Returned tt w'
    /\ Agent.user_need (Agent.state w') = Some "one-time".
Proof.
  apply (discovery_prefers_one_time _ (Agent.HumanMessage "weekly team meeting")).
  - reflexivity.
  - exists []. reflexivity.
  - exists "meeting". split; [cbn; auto | vm_compute; reflexivity].
  - exists "weekly". split; [cbn; auto | vm_compute; reflexivity].
Defined.

(** C2, as the claim states it, fails on the state the sample session
    reaches: in a served city with fifteen people and a recurring need
    the node stores Maybe, and the scorer's status for the same three
    keys is Qualified. *)
Lemma handoff_status_differs_from_scorer :
  Agent.conversation_stage (Agent.state Session.world_until_email)
  = "email_collection"
  /\ Agent.qualification_status
       (Agent.state
          (Session.world_of
             (Agent.email_collection_node Session.example_sales_email
                Session.world_until_email)))
     = Some "Maybe"
  /\ Tools.status
       (Tools.calculate_lead_score
          (Agent.is_in_service_area (Agent.state Session.world_until_email))
          (Agent.headcount (Agent.state Session.world_until_email))
          (Agent.user_need (Agent.state Session.world_until_email)) 20)
     = "Qualified".
Proof. vm_compute. repeat split. Qed.

Lemma handoff_status_rule_witness :
  exists w' q,
    Agent.email_collection_node Session.example_sales_email Session.world_until_email
    = Agent.Returned tt w'
    /\ Agent.qualification_status (Agent.state w') = Some q
    /\ q = "Maybe".
Proof.
  destruct (handoff_status_rule Session.example_sales_email Session.world_until_email
              (Agent.HumanMessage "sarah.johnson@techcorp.com"))
    as (w' & q & Hrun & Hq & _ & Hmaybe & _).
  - reflexivity.
  - exists (removelast (Agent.messages (Agent.state Session.world_until_email))).
    vm_compute. reflexivity.
  - exists w', q. split; [exact Hrun|]. split; [exact Hq|].
    apply Hmaybe. left. split; reflexivity.
Defined.

(* ================================================================== *)
(** ** More on the text primitives *)

Section CaseFacts.

Ltac all_characters c :=
  destruct c as [[] [] [] [] [] [] [] []]; vm_compute; reflexivity.



Lemma lower_char_not_upper (c : ascii) : Py.is_upper (Py.lower_char c) = false.
Proof. all_characters c. Qed.





Lemma prefix_empty (s : string) : String.prefix "" s = true.
Proof. destruct s; reflexivity. Qed.

(** The empty text occurs in every text. *)
Lemma contains_empty (s : string) : Py.contains "" s = true.
Proof. destruct s; reflexivity. Qed.

(** The characters of a text. *)
Lemma contains_first_char (c : ascii) (k s : string) :
  Py.contains (String c k) s = true -> In c (list_ascii_of_string s).
Proof.
  induction s as [|d s IH]; cbn [Py.contains String.prefix list_ascii_of_string].
  - discriminate.
  - destruct (ascii_dec c d) as [->|Hne]; [intros _; now left|].
    cbn [orb]. intros H. right. now apply IH.
Qed.

Lemma lower_has_no_upper (s : string) (c : ascii) :
  In c (list_ascii_of_string (Py.lower s)) -> Py.is_upper c = false.
Proof.
  induction s as [|d s IH]; cbn [Py.lower list_ascii_of_string In]; [tauto|].
  intros [<-|Hin]; [apply lower_char_not_upper | now apply IH].
Qed.

(** A text that starts with a capital letter never occurs in a lowered
    text. *)
Lemma capitalised_never_in_lower (c : ascii) (k s : string) :
  Py.is_upper c = true -> Py.contains (String c k) (Py.lower s) = false.
Proof.
  intros Hupper. destruct (Py.contains (String c k) (Py.lower s)) eqn:E;
    [|reflexivity].
  apply contains_first_char, lower_has_no_upper in E. congruence.
Qed.

End CaseFacts.


(** *** Stripping *)

Section StripFacts.

Import Session.

Lemma is_space_lower_char (c : ascii) :
  Py.is_space (Py.lower_char c) = Py.is_space c.
Proof. destruct c as [[] [] [] [] [] [] [] []]; vm_compute; reflexivity. Qed.

Lemma lstrip_first (s : string) (c : ascii) :
  first_char (Py.lstrip s) = Some c -> Py.is_space c = false.
Proof.
  induction s as [|d s IH]; cbn [Py.lstrip]; [discriminate|].
  destruct (Py.is_space d) eqn:E; [exact IH|].
  cbn [first_char]. now intros [= <-].
Qed.

Lemma rstrip_first (c : ascii) (s : string) :
  Py.is_space c = false -> first_char (Py.rstrip (String c s)) = Some c.
Proof.
  intros Hc. cbn [Py.rstrip]. rewrite Hc. now destruct (Py.rstrip s).
Qed.

Lemma rstrip_last (s : string) (c : ascii) :
  last_char (Py.rstrip s) = Some c -> Py.is_space c = false.
Proof.
  induction s as [|d s IH]; cbn [Py.rstrip]; [discriminate|].
  destruct (Py.rstrip s) as [|x y] eqn:E.
  - destruct (Py.is_space d) eqn:Ed; [discriminate|].
    cbn [last_char]. now intros [= <-].
  - exact IH.
Qed.

(** A stripped text neither starts nor ends with a blank. *)
Lemma strip_ends (s : string) (c : ascii) :
  first_char (Py.strip s) = Some c \/ last_char (Py.strip s) = Some c ->
  Py.is_space c = false.
Proof.
  unfold Py.strip. intros [Hfirst|Hlast]; [|now apply rstrip_last in Hlast].
  destruct (Py.lstrip s) as [|d r] eqn:E; [discriminate Hfirst|].
  assert (Py.is_space d = false) as Hd
      by (apply (lstrip_first s); now rewrite E).
  rewrite (rstrip_first d r Hd) in Hfirst. now injection Hfirst as <-.
Qed.

(** A text of blanks only strips to the empty text. *)
Lemma strip_blank (s : string) :
  forallb Py.is_space (list_ascii_of_string s) = true -> Py.strip s = "".
Proof.
  unfold Py.strip. induction s as [|d s IH];
    cbn [list_ascii_of_string forallb Py.lstrip]; [reflexivity|].
  intros H. apply andb_true_iff in H. destruct H as [-> Hs]. now apply IH.
Qed.

Lemma lower_blank (s : string) :
  forallb Py.is_space (list_ascii_of_string (Py.lower s))
  = forallb Py.is_space (list_ascii_of_string s).
Proof.
  induction s as [|d s IH]; cbn [Py.lower list_ascii_of_string forallb];
    [reflexivity|].
  now rewrite is_space_lower_char, IH.
Qed.

End StripFacts.

(* ================================================================== *)
(** ** More on the partner search *)

Section PartnerSearchMore.

Import Tools.

Variable table : list RestaurantPartner.
Variable to_dict : RestaurantPartner -> Dict.






(** X2.  A smaller limit gives a prefix of what a larger limit gives:
    the results for [small] are the first [max 1 small] results for
    [large]. *)
Theorem partner_search_limit_prefix (city_arg : string)
        (cuisine dietary : option (list string)) (cap : option string)
        (small large : Z) :
  small <= large ->
  get_restaurant_partners table to_dict city_arg cuisine dietary cap small
  = firstn (Z.to_nat (Z.max 1 small))
      (get_restaurant_partners table to_dict city_arg cuisine dietary cap large).
Proof.
  intros Hle. rewrite !partner_search_first_matches, firstn_firstn.
  f_equal. lia.
Qed.

(** X3.  Empty arguments filter nothing.  With a city of blanks only
    (or empty), a cuisine list and a dietary list that are left out or
    empty, and a capacity that is left out or empty, every row
    matches: the search returns the first rows of the whole table. *)
Theorem partner_search_empty_arguments (city_arg : string)
        (cuisine dietary : option (list string)) (cap : option string)
        (limit : Z) :
  forallb Py.is_space (list_ascii_of_string city_arg) = true ->
  cuisine = None \/ cuisine = Some [] ->
  dietary = None \/ dietary = Some [] ->
  cap = None \/ cap = Some "" ->
  get_restaurant_partners table to_dict city_arg cuisine dietary cap limit
  = firstn (Z.to_nat (Z.max 1 limit)) (map to_dict table).
Proof.
  intros Hblank Hcuisine Hdietary Hcap.
  rewrite partner_search_first_matches. do 2 f_equal.
  assert (forall r, keeps city_arg cuisine dietary cap r = true) as Hall.
  { intros r. unfold keeps, city_ok, city_lower.
    rewrite strip_blank by (now rewrite lower_blank).
    rewrite contains_empty.
    destruct Hcuisine as [-> | ->], Hdietary as [-> | ->], Hcap as [-> | ->];
      reflexivity. }
  induction table as [|r rest IH]; cbn [filter]; [reflexivity|].
  now rewrite Hall, IH.
Qed.

(** X4.  Every result is the dict of a table row that passes all the
    tests; with a capacity argument the row's capacity ranks at least
    as high as the argument's, so the argument is a floor. *)
Theorem partner_search_results_pass (city_arg : string)
        (cuisine dietary : option (list string)) (cap : option string)
        (limit : Z) (d : Dict) :
  In d (get_restaurant_partners table to_dict city_arg cuisine dietary cap limit) ->
  exists r,
    In r table /\ d = to_dict r
    /\ keeps city_arg cuisine dietary cap r = true
    /\ (forall c, cap = Some c -> c <> "" ->
          Py.dict_get capacity_order (Py.lower c) 0
          <= Py.dict_get capacity_order (Py.lower (capacity r)) 0).
Proof.
  rewrite partner_search_first_matches. intros Hin.
  apply in_firstn_in, in_map_iff in Hin. destruct Hin as (r & <- & Hr).
  apply filter_In in Hr. destruct Hr as [Hr Hkeeps].
  exists r. repeat split; try assumption.
  intros c -> Hc. unfold keeps in Hkeeps. rewrite !andb_true_iff in Hkeeps.
  destruct Hkeeps as [_ Hcap]. unfold capacity_ok in Hcap.
  assert (truthy (Some c) = true) as Ht by (destruct c; [contradiction|reflexivity]).
  rewrite Ht in Hcap. apply negb_true_iff in Hcap.
  destruct (Z.gtb_spec (Py.dict_get capacity_order (Py.lower c) 0)
              (Py.dict_get capacity_order (Py.lower (capacity r)) 0));
    [discriminate|lia].
Qed.

End PartnerSearchMore.

(* ================================================================== *)
(** ** The service-area check *)

Section AreaCheckFacts.

Import Tools.

Variable areas : list ServiceArea.





Lemma check_service_area_loop_find (rows : list ServiceArea)
      (city_arg city_lower : string) (state_arg : option string) :
  check_service_area_loop rows city_arg city_lower state_arg
  = match find (area_matches city_lower state_arg) rows with
    | Some area => Served area
    | None =>
        NotServed ("We don't currently serve " ++ city_arg
                   ++ ", but we're always expanding!")
    end.
Proof.
  induction rows as [|area rows IH]; cbn [check_service_area_loop find];
    [reflexivity|].
  unfold area_matches at 1.
  destruct (Py.contains city_lower (Py.lower (area_city area))); [|exact IH].
  destruct (truthy state_arg
            && match state_arg with
               | Some st => negb (Py.upper st =? area_state area)%string
               | None => false
               end)%bool; [exact IH|reflexivity].
Qed.

(** X5.  The check returns the first row, in table order, whose lowered
    city contains the lowered, stripped query and whose state, when a
    non-empty state is given, equals the raised state argument; it
    reports the area as not served, echoing the query as it was typed,
    exactly when no row does. *)
Theorem check_service_area_first_row (city_arg : string)
        (state_arg : option string) :
  (forall area,
      check_service_area areas city_arg state_arg = Served area <->
      exists before after,
        areas = (before ++ area :: after)%list
        /\ area_matches (Py.strip (Py.lower city_arg)) state_arg area = true
        /\ forallb (fun a => negb (area_matches (Py.strip (Py.lower city_arg))
                                     state_arg a)) before = true)
  /\ (serves_area (check_service_area areas city_arg state_arg) = false <->
      check_service_area areas city_arg state_arg
      = NotServed ("We don't currently serve " ++ city_arg
                   ++ ", but we're always expanding!"))
  /\ (forall area st,
        check_service_area areas city_arg state_arg = Served area ->
        Py.contains (Py.strip (Py.lower city_arg)) (Py.lower (area_city area))
        = true
        /\ (state_arg = Some st -> st <> "" -> area_state area = Py.upper st)).
Proof.
  unfold check_service_area. rewrite check_service_area_loop_find.
  set (test := area_matches (Py.strip (Py.lower city_arg)) state_arg).
  assert (forall area,
             find test areas = Some area <->
             exists before after,
               areas = (before ++ area :: after)%list /\ test area = true
               /\ forallb (fun a => negb (test a)) before = true) as Hfind.
  { intros area. clear. induction areas as [|a rows IH]; cbn [find].
    - split; [discriminate|]. intros (before & after & H & _).
      destruct before; discriminate H.
    - destruct (test a) eqn:Ea.
      + split.
        * intros [= <-]. exists [], rows. repeat split; assumption.
        * intros (before & after & H & Harea & Hbefore).
          destruct before as [|b before]; cbn in H; injection H as <- ?;
            [reflexivity|].
          cbn in Hbefore. rewrite Ea in Hbefore. discriminate Hbefore.
      + rewrite IH. split.
        * intros (before & after & -> & Harea & Hbefore).
          exists (a :: before), after. repeat split; try assumption.
          cbn. now rewrite Ea.
        * intros (before & after & H & Harea & Hbefore).
          destruct before as [|b before]; cbn in H; injection H as <- ?.
          -- congruence.
          -- exists before, after. repeat split; try assumption.
             cbn in Hbefore. rewrite Ea in Hbefore. exact Hbefore. }
  split; [|split].
  - intros area. rewrite <- Hfind.
    destruct (find test areas); split; intros H; congruence.
  - destruct (find test areas); cbn [serves_area]; split; intros H;
      congruence.
  - intros area st H.
    assert (find test areas = Some area) as Hsome
        by (destruct (find test areas); congruence).
    apply find_some in Hsome. destruct Hsome as [_ Htest].
    unfold test, area_matches in Htest.
    destruct (Py.contains (Py.strip (Py.lower city_arg))
                (Py.lower (area_city area))); [|discriminate Htest].
    split; [reflexivity|]. intros -> Hst.
    assert (truthy (Some st) = true) as Ht
        by (destruct st; [contradiction|reflexivity]).
    rewrite Ht in Htest. cbn [andb] in Htest.
    destruct (String.eqb_spec (Py.upper st) (area_state area));
      [congruence|discriminate Htest].
Qed.




(** X7.  A city argument of blanks only (or empty), with no state or
    an empty one, is reported as served: by the first row of the
    table. *)
Theorem check_service_area_blank_city (city_arg : string)
        (state_arg : option string) (first : ServiceArea)
        (others : list ServiceArea) :
  areas = first :: others ->
  forallb Py.is_space (list_ascii_of_string city_arg) = true ->
  state_arg = None \/ state_arg = Some "" ->
  check_service_area areas city_arg state_arg = Served first.
Proof.
  intros -> Hblank Hstate. unfold check_service_area.
  rewrite strip_blank by (now rewrite lower_blank).
  cbn [check_service_area_loop]. rewrite contains_empty.
  destruct Hstate as [->| ->]; reflexivity.
Qed.

End AreaCheckFacts.

(* ================================================================== *)
(** ** The agent tools *)

Section AgentToolsFacts.

Import Tools.

Variable areas : list ServiceArea.
Variable partners : list RestaurantPartner.

(** X8.  The two copies of the area check agree: the agent tool
    answers with the reply for an area exactly when the helper, called
    without a state, serves that area, and with its regret otherwise. *)
Theorem agent_area_check_agrees (city_arg : string) :
  ToolsAgent.check_service_area areas partners city_arg
  = match check_service_area areas city_arg None with
    | Served area => ToolsAgent.area_reply partners area
    | NotServed _ =>
        "We don't currently serve " ++ Py.title city_arg
        ++ ", but we're always expanding! We'd love to stay in touch about your catering needs and can notify you when we expand to your area."
    end.
Proof.
  unfold ToolsAgent.check_service_area, check_service_area.
  induction areas as [|area rows IH];
    cbn [ToolsAgent.check_service_area_loop check_service_area_loop];
    [reflexivity|].
  destruct (Py.contains (Py.strip (Py.lower city_arg))
              (Py.lower (area_city area))); [reflexivity|exact IH].
Qed.

(** X9.  The reply for an area names at most three partners, and each
    is a partner of exactly that city and state (here the case
    counts). *)
Theorem agent_area_partners (area : ServiceArea) :
  (List.length (ToolsAgent.partners_of partners area) <= 3)%nat
  /\ forall partner_name,
       In partner_name (ToolsAgent.partners_of partners area) ->
       exists r, In r partners /\ name r = partner_name
                 /\ city r = area_city area /\ state r = area_state area.
Proof.
  unfold ToolsAgent.partners_of. split; [apply firstn_le_length|].
  intros partner_name Hin.
  apply in_firstn_in, in_map_iff in Hin. destruct Hin as (r & Hname & Hr).
  apply filter_In in Hr. destruct Hr as [Hr Htest].
  apply andb_true_iff in Htest. destruct Htest as [Hcity Hstate].
  exists r. repeat split; try assumption; now apply String.eqb_eq.
Qed.

(** X10.  [check_order_minimum] accepts from 20 people up, whatever
    the frequency; below 10 it declines, whatever the frequency; and
    only from 10 to 19 does the frequency decide between the two
    in-between replies.  Its bands are the scorer's headcount bands. *)
Theorem order_minimum_bands (people_count : Z) (f1 f2 : string) :
  (Py.startswith (ToolsAgent.check_order_minimum people_count f1) "Perfect!"
   = true <-> 20 <= people_count)
  /\ (Py.startswith (ToolsAgent.check_order_minimum people_count f1)
        "Thank you for considering" = true <-> people_count < 10)
  /\ (people_count < 10 \/ 20 <= people_count ->
      ToolsAgent.check_order_minimum people_count f1
      = ToolsAgent.check_order_minimum people_count f2)
  /\ (Py.startswith (ToolsAgent.check_order_minimum people_count f1) "Perfect!"
      = true <-> Spec.headcount_points (Some people_count) = 30)
  /\ (Py.startswith (ToolsAgent.check_order_minimum people_count f1)
        "Thank you for considering" = true
      <-> Spec.headcount_points (Some people_count) = 0).
Proof.
  unfold ToolsAgent.check_order_minimum, Spec.headcount_points, Py.startswith.
  destruct (Z.geb_spec people_count 20), (Z.leb_spec 20 people_count); try lia.
  - repeat split; intros; try reflexivity; try lia; discriminate.
  - destruct (Z.geb_spec people_count 10), (Z.leb_spec 10 people_count); try lia.
    + destruct (Py.contains "recurring" (Py.lower f1)
                || Py.contains "daily" (Py.lower f1)
                || Py.contains "weekly" (Py.lower f1))%bool;
        repeat split; intros; try reflexivity; try lia; try discriminate.
    + repeat split; intros; try reflexivity; try lia; discriminate.
Qed.

End AgentToolsFacts.

(* ================================================================== *)
(** ** More on the scorer *)

Section ScorerMore.

Import Tools.

Lemma service_area_step_effect (a : option bool) (acc : Acc) :
  service_area_step a acc
  = (fst acc + Spec.area_points a,
     (snd acc ++ [if truthy a then "In service area"
                  else "Outside current service area"])%list).
Proof.
  unfold service_area_step, add. destruct a as [[|]|]; cbn; f_equal; lia.
Qed.

Lemma headcount_step_effect (h : option Z) (m : Z) :
  exists pts rs,
    (pts = 0 \/ pts = 15 \/ pts = 30)
    /\ (List.length rs <= 1)%nat
    /\ forall acc : Acc,
         headcount_step h m acc = (fst acc + pts, (snd acc ++ rs)%list).
Proof.
  assert (forall acc : Acc, acc = (fst acc + 0, (snd acc ++ [])%list)) as Hsame.
  { intros [sc rs]. cbn. f_equal; [lia|now rewrite app_nil_r]. }
  destruct h as [n|]; [destruct (Z.eq_dec n 0) as [->|Hn]|].
  - exists 0, []. split; [now left|]. split; [cbn; lia|]. exact Hsame.
  - destruct (headcount_step_appends_one n m Hn) as (pts & reason & Hstep).
    exists pts, [reason]. split; [|split; [cbn; lia|exact Hstep]].
    pose proof (Hstep (0, [])) as E.
    rewrite (headcount_step_nonzero n m _ Hn) in E. unfold add in E.
    destruct (n >=? m); [|destruct (n >=? 10)];
      apply (f_equal fst) in E; cbn [fst] in E; lia.
  - exists 0, []. split; [now left|]. split; [cbn; lia|]. exact Hsame.
Qed.

Lemma need_step_effect (u : option string) :
  exists rs,
    (List.length rs <= 1)%nat
    /\ forall acc : Acc,
         need_step u acc = (fst acc + Spec.need_points u, (snd acc ++ rs)%list).
Proof.
  destruct (need_step_appends u) as (pts & rs & Hstep).
  assert (pts = Spec.need_points u) as ->.
  { pose proof (need_step_points u (0, [])) as H. rewrite Hstep in H.
    cbn in H. lia. }
  exists rs. split; [|exact Hstep].
  pose proof (Hstep (0, [])) as H. unfold need_step, add in H.
  assert (forall l : list string, (List.length l <= 1)%nat ->
            snd (need_step u (0, [])) = l -> (List.length rs <= 1)%nat) as Hlen.
  { intros l Hl E. rewrite Hstep in E. cbn [snd app] in E. now subst l. }
  unfold need_step, add in Hlen.
  destruct u as [n|]; [|apply (Hlen []); [cbn; lia|reflexivity]].
  destruct (n =? "recurring")%string;
    [eapply Hlen; [|reflexivity]; cbn; lia|].
  destruct (n =? "one-time")%string; eapply Hlen; try reflexivity; cbn; lia.
Qed.

(** X11.  For every minimum order size the score lies between 0 and
    100, and the reasons are the area reason followed by at most two
    more. *)
Theorem score_and_reasons_bounds (a : option bool) (h : option Z)
        (u : option string) (m : Z) :
  let r := calculate_lead_score a h u m in
  0 <= score r <= 100
  /\ exists more,
       reasons r = (if truthy a then "In service area"
                    else "Outside current service area") :: more
       /\ (List.length more <= 2)%nat.
Proof.
  cbv zeta. unfold calculate_lead_score. cbn [score reasons].
  destruct (headcount_step_effect h m) as (hp & hrs & Hhp & Hhlen & Hh).
  destruct (need_step_effect u) as (nrs & Hnlen & Hn).
  rewrite Hn, Hh, service_area_step_effect. cbn [fst snd app].
  pose proof (need_points_bounds u) as Hneed.
  split.
  - destruct a as [[|]|]; cbn [Spec.area_points]; lia.
  - exists (hrs ++ nrs)%list. split; [reflexivity|].
    rewrite length_app. lia.
Qed.

(** X12.  Whatever the minimum order size, a lead outside the service
    area is never Qualified and a lead inside it is never Not
    Qualified. *)
Theorem area_bounds_the_status (a : option bool) (h : option Z)
        (u : option string) (m : Z) :
  let r := calculate_lead_score a h u m in
  (status r = "Qualified" -> truthy a = true)
  /\ (truthy a = true -> status r <> "Not Qualified").
Proof.
  cbv zeta. unfold calculate_lead_score. cbn [score status].
  destruct (headcount_step_effect h m) as (hp & hrs & Hhp & _ & Hh).
  destruct (need_step_effect u) as (nrs & _ & Hn).
  rewrite Hn, Hh, service_area_step_effect. cbn [fst snd].
  pose proof (need_points_bounds u) as Hneed.
  split.
  - intros Hq. apply status_of_qualified in Hq.
    destruct a as [[|]|]; [reflexivity| |]; cbn [Spec.area_points] in Hq; lia.
  - intros Ha Hnot. apply status_of_not_qualified in Hnot.
    destruct a as [[|]|]; try discriminate Ha.
    cbn [Spec.area_points] in Hnot. lia.
Qed.

(** X13.  Lowering the minimum order size never lowers the score. *)
Theorem lower_minimum_never_lowers_score (a : option bool) (h : option Z)
        (u : option string) (m1 m2 : Z) :
  m1 <= m2 ->
  score (calculate_lead_score a h u m2) <= score (calculate_lead_score a h u m1).
Proof.
  intros Hle. unfold calculate_lead_score. cbn [score].
  destruct (headcount_step_effect h m1) as (p1 & rs1 & Hp1 & _ & Hh1).
  destruct (headcount_step_effect h m2) as (p2 & rs2 & Hp2 & _ & Hh2).
  destruct (need_step_effect u) as (nrs & _ & Hn).
  rewrite !Hn, Hh1, Hh2. cbn [fst].
  assert (p2 <= p1); [|lia].
  destruct h as [n|].
  - destruct (Z.eq_dec n 0) as [->|Hn0].
    + pose proof (f_equal fst (Hh1 (0, []))) as E1.
      pose proof (f_equal fst (Hh2 (0, []))) as E2.
      rewrite headcount_step_zero in E1, E2. cbn [fst] in E1, E2. lia.
    + pose proof (f_equal fst (Hh1 (0, []))) as E1.
      pose proof (f_equal fst (Hh2 (0, []))) as E2.
      rewrite (headcount_step_nonzero n m1 _ Hn0) in E1.
      rewrite (headcount_step_nonzero n m2 _ Hn0) in E2. unfold add in E1, E2.
      destruct (Z.geb_spec n m1), (Z.geb_spec n m2), (Z.geb_spec n 10);
        cbn [fst] in E1, E2; lia.
  - pose proof (f_equal fst (Hh1 (0, []))) as E1.
    pose proof (f_equal fst (Hh2 (0, []))) as E2.
    change (headcount_step None m1 (0, [])) with ((0, []) : Acc) in E1.
    change (headcount_step None m2 (0, [])) with ((0, []) : Acc) in E2.
    cbn [fst] in E1, E2. lia.
Qed.

(** X14.  The recommendation follows the score alone: immediate
    routing exactly from 70 up, evaluation exactly from 40 to 69, and
    capture for later exactly below 40. *)
Theorem recommendation_by_score (a : option bool) (h : option Z)
        (u : option string) (m : Z) :
  let r := calculate_lead_score a h u m in
  (recommendation r = "Route to sales team immediately - high-priority lead"
   <-> 70 <= score r)
  /\ (recommendation r
      = "Route to sales team for evaluation - potential opportunity"
      <-> 40 <= score r < 70)
  /\ (recommendation r
      = "Capture information for future follow-up when expanding"
      <-> score r < 40).
Proof.
  cbv zeta. unfold calculate_lead_score. cbn [score recommendation].
  set (sc := fst _). unfold _get_recommendation, status_of.
  destruct (Z.geb_spec sc 70) as [G70|G70];
    [|destruct (Z.geb_spec sc 40) as [G40|G40]]; cbn;
    (split; [|split]); split; intros E; try discriminate E;
    try reflexivity; lia.
Qed.

End ScorerMore.

(* ================================================================== *)
(** ** More on the stage machine *)

Section StageMachineMore.

Import Agent.
Import Session.

Variable sales_email : string.

Ltac open_node :=
  unfold greeting_node, discovery_node, location_node, timing_node,
    scale_node, frequency_node, preferences_node,
    get_restaurant_partners_node, contact_capture_node,
    email_collection_node, handoff_node, last_content, append_message,
    call_send_notification, Tools.send_notification,
    bind, read, assign, ret, raise.

Ltac fields w :=
  destruct w as [[msgs need city st tm hc fr cp dr area mm qs cn ce cph
                  stage rfh nts] cons].

Ltac own_stage lit :=
  match goal with
  | |- context [String.eqb ?p lit] =>
      destruct (String.eqb_spec p lit) as [->|Hne]; cbn [negb];
      [| intros Hstage; contradiction]
  end.

Ltac read_last :=
  cbn [state console conversation_stage messages];
  match goal with
  | |- context [rev ?l] =>
      destruct (rev l) as [|last_msg before]; [exact I|]
  end.

Ltac frame_facts :=
  intros _; split; cbn;
  [ unfold untouched_keys; cbn; repeat split
  | first [ reflexivity | tauto ]
  | first [ solve [intros _; repeat split; reflexivity]
          | intros C; contradiction C; reflexivity ]
  | first [ solve [intros _; reflexivity]
          | intros C; contradiction C; reflexivity ]
  | first [ reflexivity | discriminate ]
  | first [ solve [intros _; reflexivity]
          | intros C; contradiction C; reflexivity ]
  | first [ reflexivity | solve [repeat split; discriminate] ]
  | first [ intros C; discriminate C | idtac ]
  | first [ eexists [_]; repeat split; [cbn; lia | repeat constructor]
          | exists []; repeat split; [symmetry; apply app_nil_r | cbn; lia
                                      | constructor] ] ].

(** Every node that runs its body writes only its own keys. *)
Lemma node_framed (n : StageNode) (w : World) :
  match node_fn sales_email n w with
  | Returned _ w' =>
      conversation_stage (state w) = node_stage n -> framed n w w'
  | Raised _ _ => True
  end.
Proof.
  fields w.
  destruct n; cbn [node_fn node_stage]; open_node;
    cbn [state console conversation_stage messages].
  - own_stage "greeting". frame_facts.
  - own_stage "discovery". read_last.
    destruct (any_in one_time_words _); [|destruct (any_in recurring_words _)];
      frame_facts.
  - own_stage "location". read_last.
    match goal with
    | |- context [location_loop ?cs ?m ?w] =>
        destruct (location_loop_result cs m w) as [E|(c & s & Hin & E)];
        rewrite E; [| rewrite (service_city_truthy c Hin)]
    end; cbn; frame_facts.
  - own_stage "timing". read_last. frame_facts.
  - own_stage "scale". read_last.
    destruct (Py.findall_digits _) as [|first others]; cbn;
      (destruct need as [nd|];
       [destruct (String.eqb_spec nd "recurring") as [->|Hnd]|]);
      frame_facts; intros _;
      (split; intros E; first [reflexivity | discriminate E | congruence]).
  - own_stage "frequency". read_last. frame_facts.
  - own_stage "preferences". read_last. frame_facts.
  - own_stage "restaurant_partners". frame_facts.
  - own_stage "contact_capture". read_last.
    match goal with |- context [if ?b then _ else _] => destruct b end;
      frame_facts.
  - own_stage "email_collection". read_last. frame_facts.
  - own_stage "handoff". frame_facts.
Qed.


(** The outcome of an invocation, with both descriptions of the body. *)
Lemma node_outcome (n : StageNode) (w : World) :
  world_of (node_fn sales_email n w) = w
  \/ exists w',
       node_fn sales_email n w = Returned tt w'
       /\ conversation_stage (state w) = node_stage n
       /\ advanced n w w' /\ framed n w w'.
Proof.
  generalize (node_framed n w).
  destruct (node_invocation sales_email n w)
    as [Hskip|Hstage Hn Hempty|w' Hstage Hadv]; intros Hframed.
  - now left.
  - now left.
  - right. exists w'. split; [reflexivity|]. split; [exact Hstage|].
    split; [exact Hadv|now apply Hframed].
Qed.

Lemma user_says (text : string) (w : World) :
  do_event sales_email (UserSays text) w
  = Returned tt {| state := set_messages
                              (messages (state w) ++ [HumanMessage text])%list
                              (state w);
                   console := console w |}.
Proof. reflexivity. Qed.

(** A property of worlds that every event keeps is kept by every run. *)
Lemma run_keeps (P : World -> Prop) :
  (forall e w, P w -> P (world_of (do_event sales_email e w))) ->
  forall events w, P w -> P (world_of (run sales_email events w)).
Proof.
  intros Hevent. induction events as [|e events IH]; intros w Hw; cbn [run].
  - exact Hw.
  - pose proof (Hevent e w Hw) as He. unfold bind.
    destruct (do_event sales_email e w) as [[] w1|err w1]; cbn [world_of] in *.
    + now apply IH.
    + exact He.
Qed.

(** *** The stage only advances *)

Lemma successor_rank (n : StageNode) (stage : string) :
  In stage (successors n) ->
  (stage_rank (node_stage n) < stage_rank stage)%nat.
Proof.
  destruct n; cbn [successors In]; intros H;
    repeat (destruct H as [<-|H]; [vm_compute; lia|]); contradiction.
Qed.

(** X15.  An invocation either leaves the world as it is or moves the
    stage strictly forward in the pipeline; along a run the stage never
    moves back. *)
Theorem stage_never_goes_back :
  (forall n w,
      world_of (node_fn sales_email n w) = w
      \/ (stage_rank (conversation_stage (state w))
          < stage_rank (conversation_stage
                          (state (world_of (node_fn sales_email n w)))))%nat)
  /\ (forall events w,
         (stage_rank (conversation_stage (state w))
          <= stage_rank (conversation_stage
                           (state (world_of (run sales_email events w)))))%nat).
Proof.
  assert (forall n w,
             world_of (node_fn sales_email n w) = w
             \/ (stage_rank (conversation_stage (state w))
                 < stage_rank (conversation_stage
                                 (state (world_of (node_fn sales_email n w)))))%nat)
    as Hnode.
  { intros n w. destruct (node_outcome n w) as [Hsame|(w' & -> & Hstage & Hadv & _)];
      [now left|right].
    cbn [world_of]. rewrite Hstage. apply successor_rank, (adv_stage _ _ _ Hadv). }
  split; [exact Hnode|].
  intros events w.
  apply (run_keeps (fun w' => (stage_rank (conversation_stage (state w))
                               <= stage_rank (conversation_stage (state w')))%nat));
    [|lia].
  intros [n|text] w1 Hle.
  - cbn [do_event]. destruct (Hnode n w1) as [->|Hlt]; lia.
  - rewrite user_says. cbn [world_of]. destruct w1 as [[] ?]. exact Hle.
Qed.

(** *** The transcript only grows *)

(** X16.  An invocation appends at most one message to the transcript,
    an assistant message, and changes none; along a run the transcript
    at the start stays a prefix of the transcript. *)
Theorem transcript_append_only :
  (forall n w,
      exists extra,
        messages (state (world_of (node_fn sales_email n w)))
        = (messages (state w) ++ extra)%list
        /\ (List.length extra <= 1)%nat
        /\ Forall (fun m => role m = AI) extra)
  /\ (forall events w,
         exists extra,
           messages (state (world_of (run sales_email events w)))
           = (messages (state w) ++ extra)%list).
Proof.
  split.
  - intros n w.
    destruct (node_outcome n w) as [->|(w' & -> & _ & _ & Hframed)].
    + exists []. rewrite app_nil_r. repeat split; [cbn; lia|constructor].
    + cbn [world_of]. apply (fr_one_message _ _ _ Hframed).
  - intros events w.
    apply (run_keeps (fun w' => exists extra,
                          messages (state w') = (messages (state w) ++ extra)%list)).
    + intros [n|text] w1 [extra Hextra].
      * cbn [do_event]. destruct (node_outcome n w1) as [->|(w' & -> & _ & Hadv & _)];
          [now exists extra|].
        cbn [world_of]. destruct (adv_messages _ _ _ Hadv) as [more ->].
        exists (extra ++ more)%list. now rewrite Hextra, app_assoc.
      * rewrite user_says. cbn [world_of]. destruct w1 as [[] ?]. cbn in *.
        exists (extra ++ [HumanMessage text])%list.
        now rewrite Hextra, app_assoc.
    + exists []. now rewrite app_nil_r.
Qed.

(** *** Keys no event writes *)

(** X17.  No run changes [dietary_requirements], [contact_name],
    [contact_phone] or [notes]: no node assigns to these keys. *)
Theorem keys_never_written (events : list Event) (w : World) :
  untouched_keys (state w) (state (world_of (run sales_email events w))).
Proof.
  apply (run_keeps (fun w' => untouched_keys (state w) (state w'))).
  - intros [n|text] w1 Hkeys.
    + cbn [do_event]. destruct (node_outcome n w1) as [->|(w' & -> & _ & _ & Hframed)];
        [exact Hkeys|].
      cbn [world_of]. destruct (fr_untouched _ _ _ Hframed) as (H1 & H2 & H3 & H4).
      destruct Hkeys as (K1 & K2 & K3 & K4).
      repeat split; congruence.
    + rewrite user_says. cbn [world_of]. destruct w1 as [[] ?]. exact Hkeys.
  - repeat split.
Qed.

(** *** What holds along runs from the initial state *)

Lemma initial_reachable : reachable_invariant (fresh initial_state).
Proof.
  split; cbn; try discriminate; auto. intros H. now contradiction H.
Qed.

Lemma event_keeps_reachable (e : Event) (w : World) :
  reachable_invariant w ->
  reachable_invariant (world_of (do_event sales_email e w)).
Proof.
  intros Hinv. destruct e as [n|text].
  - cbn [do_event].
    destruct (node_outcome n w) as [->|(w' & -> & Hstage & Hadv & Hframed)];
      [exact Hinv|].
    cbn [world_of].
    destruct Hinv as [Iknown Ihandoff Ifstage Iunset Ifreq].
    destruct Hadv as [Hnext _ _ Hconsole _ _].
    destruct Hframed as [_ Hneed _ _ Hfr _ Hkeys Hroute _].
    rewrite Hstage in Ihandoff, Ifstage, Iunset.
    unfold handoff_keys, notifications in *.
    destruct n; cbn [successors In node_stage] in *;
      repeat (destruct Hnext as [Hnext|Hnext]; try contradiction);
      (split; try rewrite <- Hnext; cbn [after_email up_to_scale Py.mem existsb
                                     String.eqb Ascii.eqb Bool.eqb orb];
       try (injection Hkeys as K1 K2 K3; rewrite K1, K2, K3);
       try rewrite Hconsole; try rewrite Hneed; try rewrite Hfr;
       try discriminate; try exact Ihandoff; auto;
       try (cbn; tauto)).
    all: try (intros _; apply (proj1 (Hroute eq_refl)); now symmetry).
    all: unfold notifications; cbn in Ihandoff;
      try match type of Hconsole with
          | ex _ => destruct Hconsole as [x Hconsole]
          end;
      rewrite ?Hconsole, ?length_app;
      try (destruct Hkeys as (? & ? & ?));
      destruct Ihandoff as (? & ? & ? & Hlen); rewrite ?Hlen;
      repeat split; auto.
  - rewrite user_says. cbn [world_of]. destruct w as [[] ?].
    destruct Hinv as [I1 I2 I3 I4 I5]. split; assumption.
Qed.

Lemma run_reachable (events : list Event) :
  reachable_invariant
    (world_of (run sales_email events (fresh initial_state))).
Proof.
  apply (run_keeps reachable_invariant);
    [exact event_keeps_reachable | exact initial_reachable].
Qed.

(** X18.  Along every run from the initial state the three keys of
    the handoff are written together with the one notification:
    [ready_for_handoff] is true, [qualification_status] is set and
    [contact_email] is set exactly when the notification has been sent,
    which is exactly when the stage is handoff or complete. *)
Theorem handoff_keys_follow_notification (events : list Event) :
  let w := world_of (run sales_email events (fresh initial_state)) in
  (ready_for_handoff (state w) = true <-> notifications w = 1%nat)
  /\ (qualification_status (state w) <> None <-> notifications w = 1%nat)
  /\ (contact_email (state w) <> None <-> notifications w = 1%nat)
  /\ (notifications w = 1%nat
      <-> In (conversation_stage (state w)) ["handoff"; "complete"]).
Proof.
  cbv zeta. destruct (run_reachable events) as [_ Hhandoff _ _ _].
  set (w := world_of _) in *.
  assert (after_email (conversation_stage (state w)) = true
          <-> In (conversation_stage (state w)) ["handoff"; "complete"]) as Hafter.
  { unfold after_email, Py.mem. rewrite existsb_exists. split.
    - intros (x & Hin & Heq). apply String.eqb_eq in Heq. now subst x.
    - intros Hin. exists (conversation_stage (state w)).
      split; [exact Hin|apply String.eqb_refl]. }
  destruct (after_email (conversation_stage (state w)));
    destruct Hhandoff as (Hready & Hstatus & Hemail & Hsent);
    rewrite Hready, Hsent; rewrite <- Hafter.
  - repeat split; auto.
  - rewrite Hstatus, Hemail.
    repeat split; intros H; try discriminate H; try contradiction; congruence.
Qed.

(** X19.  Along every run from the initial state a frequency is only
    ever recorded for a recurring need: the frequency stage is entered
    only with [user_need] recurring, and [frequency] is set only
    then. *)
Theorem frequency_only_for_recurring (events : list Event) :
  let w := world_of (run sales_email events (fresh initial_state)) in
  (conversation_stage (state w) = "frequency" ->
   user_need (state w) = Some "recurring")
  /\ (frequency (state w) <> None -> user_need (state w) = Some "recurring").
Proof.
  cbv zeta. destruct (run_reachable events) as [_ _ Hstage _ Hfreq].
  split; assumption.
Qed.

(** *** Routing *)

Lemma node_skips (n : StageNode) (w : World) :
  conversation_stage (state w) <> node_stage n ->
  node_fn sales_email n w = Returned tt w.
Proof.
  intros Hne.
  destruct (node_invocation sales_email n w) as [Hskip|Hstage _ _|w' Hstage _];
    [reflexivity|contradiction|contradiction].
Qed.

(** X20.  The node that [route_conversation] names is never the node
    of the current stage: invoked on the state that was routed, it
    returns the state as it is. *)
Theorem routed_node_is_skipped (w : World) (n : StageNode) :
  node_named (route_conversation (state w)) = Some n ->
  node_fn sales_email n w = Returned tt w.
Proof.
  intros Hnamed. apply node_skips. intros Hstage.
  unfold route_conversation in Hnamed. rewrite Hstage in Hnamed.
  destruct n; cbn [node_stage] in Hnamed;
    try (vm_compute in Hnamed; discriminate Hnamed).
  cbn [Py.dict_get String.eqb Ascii.eqb Bool.eqb] in Hnamed.
  destruct (match user_need (state w) with
            | Some n => (n =? "recurring")%string
            | None => false
            end); vm_compute in Hnamed; discriminate Hnamed.
Qed.

(** X21.  Along every run from the initial state the stage is one of
    the thirteen stage texts of the nodes; the key restaurant_showcase
    of the routing table is never the stage, so [route_conversation]
    never names the contact_capture node. *)
Theorem stage_is_known (events : list Event) :
  let w := world_of (run sales_email events (fresh initial_state)) in
  In (conversation_stage (state w)) known_stages
  /\ conversation_stage (state w) <> "restaurant_showcase"
  /\ route_conversation (state w) <> "contact_capture".
Proof.
  cbv zeta. destruct (run_reachable events) as [Hknown _ _ _ _].
  set (w := world_of _) in *.
  assert (conversation_stage (state w) <> "restaurant_showcase") as Hnot.
  { intros E. rewrite E in Hknown. cbn in Hknown.
    repeat (destruct Hknown as [Hknown|Hknown]; [discriminate Hknown|]).
    contradiction. }
  split; [exact Hknown|]. split; [exact Hnot|].
  unfold route_conversation. unfold known_stages in Hknown. cbn [In] in Hknown.
  repeat (destruct Hknown as [Hknown|Hknown];
          [rewrite <- Hknown;
           cbn [Py.dict_get String.eqb Ascii.eqb Bool.eqb];
           try discriminate;
           destruct (match user_need (state w) with
                     | Some n => (n =? "recurring")%string
                     | None => false
                     end); discriminate|]).
  contradiction.
Qed.

(** *** Single nodes *)

Ltac with_last Hstage Hlast :=
  let earlier := fresh "earlier" in
  destruct Hlast as [earlier Hlast]; cbn in Hstage, Hlast; subst;
  open_node; cbn [state console conversation_stage messages];
  rewrite ?String.eqb_refl; cbn [negb state console conversation_stage messages];
  rewrite rev_unit.

Lemma location_loop_find (cities : list (string * string)) (m : string)
      (w : World) :
  location_loop cities m w
  = match find (fun entry => Py.contains (fst entry) m) cities with
    | Some (key, abbr) =>
        Returned (Some (Py.title key)) (located (Py.title key) abbr w)
    | None => Returned None w
    end.
Proof.
  induction cities as [|[key abbr] cities IH]; cbn [location_loop find fst];
    [reflexivity|].
  destruct (Py.contains key m); [reflexivity|exact IH].
Qed.

(** X22.  [location_node] takes the first key of its city table, in
    table order, that occurs in the lowered message: it then marks the
    state as in the service area with the key's title and state.  When
    no key occurs it marks the state as outside the area and leaves
    city and state as they were.  The capitalised key Sacramento is
    never the one taken. *)
Theorem location_takes_first_key (w : World) (m : Message) :
  conversation_stage (state w) = "location" ->
  last_message_is w m ->
  exists w',
    location_node w = Returned tt w'
    /\ match find (fun entry => Py.contains (fst entry) (Py.lower (content m)))
                  service_cities with
       | Some (key, abbr) =>
           is_in_service_area (state w') = Some true
           /\ location_city (state w') = Some (Py.title key)
           /\ location_state (state w') = Some abbr
           /\ key <> "Sacramento"
       | None =>
           is_in_service_area (state w') = Some false
           /\ location_city (state w') = location_city (state w)
           /\ location_state (state w') = location_state (state w)
       end.
Proof.
  fields w. intros Hstage Hlast. with_last Hstage Hlast.
  cbn [content]. rewrite location_loop_find.
  destruct (find _ service_cities) as [[key abbr]|] eqn:Efind.
  - apply find_some in Efind. destruct Efind as [Hin Hoccurs]. cbn [fst] in Hoccurs.
    rewrite (service_city_truthy (Py.title key))
      by (apply in_map_iff; now exists (key, abbr)).
    cbn. eexists; split; [reflexivity|]. cbn. repeat split.
    intros ->. now rewrite capitalised_never_in_lower in Hoccurs.
  - cbn. eexists; split; [reflexivity|]. cbn. repeat split.
Qed.

(** X23.  [email_collection_node] takes any last message as the email:
    it stores the stripped text, which neither starts nor ends with a
    blank and is empty for a message of blanks, sets
    [ready_for_handoff], sends one notification and moves to the
    handoff stage. *)
Theorem email_collection_takes_any_text (w : World) (m : Message) :
  conversation_stage (state w) = "email_collection" ->
  last_message_is w m ->
  exists w' email,
    email_collection_node sales_email w = Returned tt w'
    /\ contact_email (state w') = Some email
    /\ email = Py.strip (content m)
    /\ (forall c, first_char email = Some c \/ last_char email = Some c ->
                  Py.is_space c = false)
    /\ (forallb Py.is_space (list_ascii_of_string (content m)) = true ->
        email = "")
    /\ conversation_stage (state w') = "handoff"
    /\ ready_for_handoff (state w') = true
    /\ notifications w' = S (notifications w).
Proof.
  fields w. intros Hstage Hlast. with_last Hstage Hlast.
  cbn. eexists _, (Py.strip (content m)). split; [reflexivity|]. cbn.
  split; [reflexivity|]. split; [reflexivity|].
  split; [apply strip_ends|]. split; [apply strip_blank|].
  split; [reflexivity|]. split; [reflexivity|].
  unfold notifications; cbn. rewrite length_app; cbn. lia.
Qed.

End StageMachineMore.

(* ================================================================== *)
(** ** Instances of the theorems above *)

Lemma partner_search_limit_prefix_witness :
  Tools.get_restaurant_partners Tools.RESTAURANT_PARTNERS Tools.entry "new york"
    None None None 2
  = firstn (Z.to_nat (Z.max 1 2))
      (Tools.get_restaurant_partners Tools.RESTAURANT_PARTNERS Tools.entry
         "new york" None None None Tools.default_limit).
Proof.
  apply (partner_search_limit_prefix Tools.RESTAURANT_PARTNERS Tools.entry
           "new york" None None None 2 Tools.default_limit).
  unfold Tools.default_limit. lia.
Defined.

Lemma partner_search_empty_arguments_witness :
  Tools.get_restaurant_partners Tools.RESTAURANT_PARTNERS Tools.entry "  "
    (Some []) None (Some "") 2
  = firstn (Z.to_nat (Z.max 1 2)) (map Tools.entry Tools.RESTAURANT_PARTNERS).
Proof.
  apply (partner_search_empty_arguments Tools.RESTAURANT_PARTNERS Tools.entry
           "  " (Some []) None (Some "") 2);
    [reflexivity | now right | now left | now right].
Defined.

Lemma partner_search_results_pass_witness :
  exists r,
    In r Tools.RESTAURANT_PARTNERS
    /\ hd [] (Tools.get_restaurant_partners Tools.RESTAURANT_PARTNERS
                Tools.entry "los angeles" None (Some ["Vegan"]) (Some "LARGE") 3)
       = Tools.entry r
    /\ Tools.keeps "los angeles" None (Some ["Vegan"]) (Some "LARGE") r = true
    /\ (forall c, Some "LARGE" = Some c -> c <> "" ->
          Py.dict_get Tools.capacity_order (Py.lower c) 0
          <= Py.dict_get Tools.capacity_order (Py.lower (Tools.capacity r)) 0).
Proof.
  apply (partner_search_results_pass Tools.RESTAURANT_PARTNERS Tools.entry
           "los angeles" None (Some ["Vegan"]) (Some "LARGE") 3).
  vm_compute. left. reflexivity.
Defined.

Lemma check_service_area_first_row_witness :
  Py.contains (Py.strip (Py.lower " SAN "))
    (Py.lower (Tools.area_city Session.san_francisco)) = true
  /\ (Some "ca" = Some "ca" -> "ca" <> "" ->
      Tools.area_state Session.san_francisco = Py.upper "ca").
Proof.
  apply (proj2 (proj2 (check_service_area_first_row Tools.SERVICE_AREAS " SAN "
                         (Some "ca")))).
  reflexivity.
Defined.

Lemma check_service_area_blank_city_witness :
  Tools.check_service_area (Session.san_francisco :: Tools.SERVICE_AREAS) "   "
    (Some "")
  = Tools.Served Session.san_francisco.
Proof.
  apply (check_service_area_blank_city
           (Session.san_francisco :: Tools.SERVICE_AREAS) "   " (Some "")
           Session.san_francisco Tools.SERVICE_AREAS);
    [reflexivity | reflexivity | now right].
Defined.

Lemma agent_area_partners_witness :
  exists r,
    In r Tools.RESTAURANT_PARTNERS /\ Tools.name r = "Curry Up Now"
    /\ Tools.city r = Tools.area_city Session.san_francisco
    /\ Tools.state r = Tools.area_state Session.san_francisco.
Proof.
  apply (proj2 (agent_area_partners Tools.RESTAURANT_PARTNERS
                  Session.san_francisco)).
  vm_compute. left. reflexivity.
Defined.

Lemma order_minimum_bands_witness :
  ToolsAgent.check_order_minimum 25 "daily"
  = ToolsAgent.check_order_minimum 25 ToolsAgent.default_order_frequency.
Proof.
  apply (proj1 (proj2 (proj2 (order_minimum_bands 25 "daily"
                                ToolsAgent.default_order_frequency)))).
  right. lia.
Defined.

Lemma area_bounds_the_status_witness :
  Tools.status (Tools.calculate_lead_score (Some true) None None 1000)
  <> "Not Qualified".
Proof.
  apply (proj2 (area_bounds_the_status (Some true) None None 1000)).
  reflexivity.
Defined.

Lemma lower_minimum_never_lowers_score_witness :
  Tools.score (Tools.calculate_lead_score (Some true) (Some 15) None 20)
  <= Tools.score (Tools.calculate_lead_score (Some true) (Some 15) None 12).
Proof.
  apply (lower_minimum_never_lowers_score (Some true) (Some 15) None 12 20).
  lia.
Defined.

Lemma frequency_only_for_recurring_witness :
  Agent.user_need
    (Agent.state
       (Session.world_of
          (Agent.run Session.example_sales_email
             (firstn 9 Session.session_until_email)
             (Agent.fresh Agent.initial_state))))
  = Some "recurring".
Proof.
  apply (proj1 (frequency_only_for_recurring Session.example_sales_email
                  (firstn 9 Session.session_until_email))).
  vm_compute. reflexivity.
Defined.

Lemma routed_node_is_skipped_witness :
  Agent.node_fn Session.example_sales_email Agent.Discovery
    (Agent.fresh Agent.initial_state)
  = Agent.Returned tt (Agent.fresh Agent.initial_state).
Proof.
  apply (routed_node_is_skipped Session.example_sales_email
           (Agent.fresh Agent.initial_state) Agent.Discovery).
  reflexivity.
Defined.

Lemma location_takes_first_key_witness :
  exists w',
    Agent.location_node (Session.at_stage "location" "Downtown Boston, MA")
    = Agent.Returned tt w'
    /\ match find (fun entry =>
                     Py.contains (fst entry)
                       (Py.lower (Agent.content
                                    (Agent.HumanMessage "Downtown Boston, MA"))))
                  Agent.service_cities with
       | Some (key, abbr) =>
           Agent.is_in_service_area (Agent.state w') = Some true
           /\ Agent.location_city (Agent.state w') = Some (Py.title key)
           /\ Agent.location_state (Agent.state w') = Some abbr
           /\ key <> "Sacramento"
       | None =>
           Agent.is_in_service_area (Agent.state w') = Some false
           /\ Agent.location_city (Agent.state w')
              = Agent.location_city
                  (Agent.state (Session.at_stage "location" "Downtown Boston, MA"))
           /\ Agent.location_state (Agent.state w')
              = Agent.location_state
                  (Agent.state (Session.at_stage "location" "Downtown Boston, MA"))
       end.
Proof.
  apply (location_takes_first_key
           (Session.at_stage "location" "Downtown Boston, MA")
           (Agent.HumanMessage "Downtown Boston, MA")).
  - reflexivity.
  - exists []. reflexivity.
Defined.

Lemma email_collection_takes_any_text_witness :
  exists w' email,
    Agent.email_collection_node Session.example_sales_email
      (Session.at_stage "email_collection" "  not an address  ")
    = Agent.Returned tt w'
    /\ Agent.contact_email (Agent.state w') = Some email
    /\ email = Py.strip (Agent.content (Agent.HumanMessage "  not an address  "))
    /\ (forall c,
          Session.first_char email = Some c \/ Session.last_char email = Some c ->
          Py.is_space c = false)
    /\ (forallb Py.is_space
          (list_ascii_of_string
             (Agent.content (Agent.HumanMessage "  not an address  "))) = true ->
        email = "")
    /\ Agent.conversation_stage (Agent.state w') = "handoff"
    /\ Agent.ready_for_handoff (Agent.state w') = true
    /\ Agent.notifications w'
       = S (Agent.notifications
              (Session.at_stage "email_collection" "  not an address  ")).
Proof.
  apply (email_collection_takes_any_text Session.example_sales_email
           (Session.at_stage "email_collection" "  not an address  ")
           (Agent.HumanMessage "  not an address  ")).
  - reflexivity.
  - exists []. reflexivity.
Defined.
